(** * Mainboard component registry (src/main.py)

    A shallow embedding of the two classes of [src/main.py] and of the
    fragment of Python's object model they run on: objects with an
    attribute dictionary live in a store and are known by their address,
    attribute writes update the store, attribute reads and calls can raise.

    The base classes [tf.keras.layers.Layer] and [tf.keras.Model] are not
    part of the repository.  What they add to an object is a parameter of
    the model, a [framework]: the attribute names they define, what reading
    one of them gives, and what calling a bound method does. *)

From Stdlib Require Import String Ascii ZArith List Lia Sorted Permutation.
From Stdlib Require Import OrdersEx.
From stdpp Require Import base list strings.
Import ListNotations.
Open Scope string_scope.
Open Scope list_scope.
Set Warnings "-register-all".

(** ** Values, objects and the store *)

Definition addr := nat.

(** Python values as far as the source builds them.  A list or dict literal
    of the source is never shared between two owners, so both are held
    inline; objects are shared and are held by reference. *)
Inductive value : Type :=
| VNone
| VBool (b : bool)
| VInt (n : Z)
| VStr (s : string)
| VList (items : list value)
| VDict (entries : list (string * value))
| VRef (a : addr)
| VMethod (name : string).

Inductive class : Type := MainboardComponent | Mainboard.

Definition class_eqb (c d : class) : bool :=
  match c, d with
  | MainboardComponent, MainboardComponent => true
  | Mainboard, Mainboard => true
  | _, _ => false
  end.

Definition class_name (c : class) : string :=
  match c with
  | MainboardComponent => "MainboardComponent"
  | Mainboard => "Mainboard"
  end.

(** The names a class body defines. *)
Definition class_attrs (c : class) : list string :=
  match c with
  | MainboardComponent => ["__init__"]
  | Mainboard =>
      ["__init__"; "initialize_components"; "monitor_temperatures";
       "manage_power_delivery"; "run_diagnostics"; "verify_all_components";
       "get_all_components"; "call"]
  end.

Record object : Type := Object {
  obj_class : class;
  obj_dict : list (string * value)
}.

Abbreviation store := (list object).

(** ** Dictionaries: insertion ordered, a repeated key overwrites in place *)

Fixpoint dict_get {V : Type} (k : string) (d : list (string * V)) : option V :=
  match d with
  | [] => None
  | (k', v) :: d' => if String.eqb k k' then Some v else dict_get k d'
  end.

Fixpoint dict_set {V : Type} (k : string) (v : V) (d : list (string * V))
  : list (string * V) :=
  match d with
  | [] => [(k, v)]
  | (k', v') :: d' =>
      if String.eqb k k' then (k, v) :: d' else (k', v') :: dict_set k v d'
  end.

Definition dict_keys {V : Type} (d : list (string * V)) : list string :=
  map fst d.

(** ** Exceptions and the state-and-exception monad *)

Inductive exn : Type :=
| AttributeError (owner : string) (name : string)
| KeyError (key : string)
| TypeError (what : string)
| Dangling (a : addr)    (* an address nothing was allocated at: the model's
                            stores allow it, Python's references do not *)
| Unmodelled (what : string).
                         (* a step outside the modelled fragment *)

Inductive result (A : Type) : Type :=
| Ok (a : A)
| Raise (e : exn).
Arguments Ok {A} a.
Arguments Raise {A} e.

Definition M (A : Type) : Type := store -> result A * store.

Definition ret {A : Type} (a : A) : M A := fun s => (Ok a, s).

Definition raise {A : Type} (e : exn) : M A := fun s => (Raise e, s).

Definition bind {A B : Type} (m : M A) (k : A -> M B) : M B :=
  fun s =>
    match m s with
    | (Ok a, s') => k a s'
    | (Raise e, s') => (Raise e, s')
    end.

Notation "x <- m ;; k" := (bind m (fun x => k))
  (at level 20, m at level 99, k at level 200, only parsing).
Notation "m ;;; k" := (bind m (fun _ => k))
  (at level 100, k at level 200, right associativity, only parsing).

(** [for x in xs: acc = body(acc, x)] *)
Fixpoint for_each {A B : Type} (xs : list A) (body : B -> A -> M B) (acc : B)
  : M B :=
  match xs with
  | [] => ret acc
  | x :: xs' => acc' <- body acc x ;; for_each xs' body acc'
  end.

(** [[body(x) for x in xs]] *)
Fixpoint list_comp {A B : Type} (xs : list A) (body : A -> M B) : M (list B) :=
  match xs with
  | [] => ret []
  | x :: xs' => y <- body x ;; ys <- list_comp xs' body ;; ret (y :: ys)
  end.

Definition range (n : nat) : list nat := seq 0 n.

(** ** Object primitives *)

Definition type_name (v : value) : string :=
  match v with
  | VNone => "NoneType"
  | VBool _ => "bool"
  | VInt _ => "int"
  | VStr _ => "str"
  | VList _ => "list"
  | VDict _ => "dict"
  | VRef _ => "object"
  | VMethod _ => "method"
  end.

Definition new_object (c : class) : M addr :=
  fun s => (Ok (length s), s ++ [Object c []]).

Definition deref (a : addr) : M object :=
  fun s =>
    match s !! a with
    | Some o => (Ok o, s)
    | None => (Raise (Dangling a), s)
    end.

Definition set_field (n : string) (v : value) (o : object) : object :=
  Object (obj_class o) (dict_set n v (obj_dict o)).

(** [obj.n = v].  The name [__dict__] stands for the instance dictionary
    itself: assigning a dictionary to it replaces every attribute of the
    object, assigning anything else is a [TypeError].  Every other name is
    a key of the instance dictionary; the source assigns no name that its
    base classes define. *)
Definition setattr (obj : value) (n : string) (v : value) : M unit :=
  match obj with
  | VRef a =>
      fun s =>
        match s !! a with
        | Some o =>
            if String.eqb n "__dict__" then
              match v with
              | VDict d => (Ok tt, <[a := Object (obj_class o) d]> s)
              | _ =>
                  (Raise (TypeError "__dict__ must be set to a dictionary"), s)
              end
            else (Ok tt, <[a := set_field n v o]> s)
        | None => (Raise (Dangling a), s)
        end
  | _ => raise (AttributeError (type_name obj) n)
  end.

Definition mem_string (n : string) (l : list string) : bool :=
  existsb (String.eqb n) l.

(** What reading [n] from the object [o] gives as far as the source
    decides it: the instance dictionary first, then the class body. *)
Definition attr_of (o : object) (n : string) : result value :=
  match dict_get n (obj_dict o) with
  | Some v => Ok v
  | None =>
      if mem_string n (class_attrs (obj_class o))
      then Ok (VMethod n)
      else Raise (AttributeError (class_name (obj_class o)) n)
  end.

(** ** The base classes

    Both classes of the source derive from classes of the framework.  What
    those add is not in the repository and is kept abstract:
    - [inherited_names c]: the attribute names that an object of class [c]
      has from its base classes (and from [object]), as [dir] lists them;
    - [inherited_attr n o classes]: what reading such a name from the
      object [o] gives, a value or an exception.  It may look at the
      attributes of [o] and at the class of every object in the store
      ([classes], by address), as [Model.layers] does, which lists the
      sub-layers found in the attributes;
    - [bound_call n args]: what calling a bound method named [n] does; it
      may write and it may raise.  The source calls only what it reads
      under the names of its data sources, which it defines nowhere, so
      what such a call runs is decided outside the repository.
    No name of the source is redefined by a framework: an instance
    attribute or a name of the class body is found first. *)
Record framework : Type := Framework {
  inherited_names : class -> list string;
  inherited_attr : string -> object -> list class -> result value;
  bound_call : string -> list value -> M value
}.

(** The classes of the objects of a store, by address. *)
Definition classes (s : store) : list class := map obj_class s.

(** What reading [n] from the object [o] gives in the store [s]: what the
    source defines comes first, then what the base classes define. *)
Definition read (F : framework) (s : store) (o : object) (n : string)
  : result value :=
  match attr_of o n with
  | Ok v => Ok v
  | Raise e =>
      if mem_string n (inherited_names F (obj_class o))
      then inherited_attr F n o (classes s)
      else Raise e
  end.

(** [obj.n] *)
Definition getattr (F : framework) (obj : value) (n : string) : M value :=
  match obj with
  | VRef a => o <- deref a ;; fun s => (read F s o n, s)
  | _ => raise (AttributeError (type_name obj) n)
  end.

(** Insertion into a sorted list of names without repetition. *)
Fixpoint insert_name (n : string) (l : list string) : list string :=
  match l with
  | [] => [n]
  | x :: l' =>
      match String.compare n x with
      | Lt => n :: l
      | Eq => l
      | Gt => x :: insert_name n l'
      end
  end.

Definition sorted_names (l : list string) : list string :=
  fold_right insert_name [] l.

(** The names [dir] lists for the object [o]: those of the instance
    dictionary, of the class body and of the base classes, sorted, each
    once. *)
Definition scanned_names (F : framework) (o : object) : list string :=
  sorted_names (dict_keys (obj_dict o) ++ class_attrs (obj_class o)
                ++ inherited_names F (obj_class o)).

(** [dir(obj)] *)
Definition dir (F : framework) (obj : value) : M (list string) :=
  match obj with
  | VRef a => o <- deref a ;; ret (scanned_names F o)
  | _ => ret []
  end.

(** [isinstance(v, c)] for a class [c] of this file. *)
Definition isinstance (v : value) (c : class) : M bool :=
  match v with
  | VRef a => o <- deref a ;; ret (class_eqb (obj_class o) c)
  | _ => ret false
  end.

(** [v[k]] for a string key. *)
Definition getitem (v : value) (k : string) : M value :=
  match v with
  | VDict d =>
      match dict_get k d with
      | Some x => ret x
      | None => raise (KeyError k)
      end
  | _ => raise (TypeError "object is not subscriptable")
  end.

(** [len(v)] *)
Definition len (v : value) : M nat :=
  match v with
  | VList l => ret (length l)
  | VDict d => ret (length d)
  | VStr s => ret (String.length s)
  | _ => raise (TypeError "object has no len()")
  end.

(** [f(args)].  Calling a bound method runs it, which is left to the
    framework; calling data is a [TypeError]. *)
Definition call_value (F : framework) (f : value) (args : list value)
  : M value :=
  match f with
  | VMethod n => bound_call F n args
  | _ =>
      raise (TypeError (String.append (type_name f) " object is not callable"))
  end.

(** ** class MainboardComponent *)

(** [MainboardComponent.__init__(self, component_type, specs, location)] *)
Definition MainboardComponent_init
    (self : value) (component_type specs location : value) : M unit :=
  setattr self "component_type" component_type ;;;
  setattr self "specs" specs ;;;
  setattr self "location" location ;;;
  setattr self "connections" (VList []) ;;;
  setattr self "temperature" (VInt 0) ;;;
  setattr self "power_draw" (VInt 0) ;;;
  setattr self "status" (VStr "operational").

(** [MainboardComponent(component_type, specs, location=None)] *)
Definition MainboardComponent_new
    (component_type : string) (specs : list (string * value))
    (location : value) : M value :=
  a <- new_object MainboardComponent ;;
  MainboardComponent_init (VRef a) (VStr component_type) (VDict specs)
                          location ;;;
  ret (VRef a).

(** ** The specification tables of [initialize_components] *)

Definition strs (l : list string) : value := VList (map VStr l).

Definition cpu_socket_specs : list (string * value) :=
  [("type", VStr "LGA1700"); ("pins", VInt 1700);
   ("supported_cpus",
    strs ["12th Gen Intel"; "13th Gen Intel"; "14th Gen Intel"]);
   ("max_tdp", VInt 253); ("overclocking", VBool true)].

Definition chipset_specs : list (string * value) :=
  [("model", VStr "Z790");
   ("features",
    strs ["PCIe 5.0"; "DDR5 Support"; "WiFi 6E"; "Thunderbolt 4"]);
   ("max_memory_speed", VInt 7800)].

Definition ram_slot_specs : list (string * value) :=
  [("type", VStr "DDR5"); ("max_speed", VInt 7800);
   ("channels", VStr "Dual-Channel"); ("xmp_support", VBool true);
   ("ecc_support", VBool true)].

Definition m2_slot_specs : list (string * value) :=
  [("interface", VStr "PCIe 5.0 x4");
   ("form_factors", strs ["2280"; "2260"; "2242"; "22110"]);
   ("cooling", VStr "Heatsink included"); ("max_speed", VStr "128 Gb/s")].

Definition sata_port_specs : list (string * value) :=
  [("version", VStr "SATA III"); ("speed", VStr "6 Gb/s");
   ("raid_support", strs ["0"; "1"; "5"; "10"])].

Definition vrm_specs : list (string * value) :=
  [("phases", VStr "20+1+2"); ("mosfets", VStr "DrMOS 90A");
   ("controller", VStr "Digitally Controlled");
   ("cooling", VStr "Extended Heatsink");
   ("monitoring", VStr "Real-time current and temperature")].

Definition fan_header_specs : list (string * value) :=
  [("type", VStr "PWM"); ("max_current", VStr "2A");
   ("smart_control", VBool true); ("hybrid_mode", VBool true)].

Definition pump_header_specs : list (string * value) :=
  [("type", VStr "AIO/Custom Loop"); ("max_current", VStr "3A");
   ("smart_control", VBool true)].

Definition argb_header_specs : list (string * value) :=
  [("pins", VInt 3); ("voltage", VStr "5V"); ("max_current", VStr "3A");
   ("led_count", VInt 300)].

Definition rgb_header_specs : list (string * value) :=
  [("pins", VInt 4); ("voltage", VStr "12V"); ("max_current", VStr "3A")].

Definition debug_specs : list (string * value) :=
  [("post_code", VStr "LED Display"); ("voltage_monitoring", VBool true);
   ("temperature_sensors", VInt 10); ("fan_monitoring", VBool true);
   ("error_logging", VBool true)].

Definition bios_specs : list (string * value) :=
  [("type", VStr "UEFI"); ("size", VStr "256Mb"); ("dual_bios", VBool true);
   ("flashback", VBool true); ("secure_boot", VBool true);
   ("tpm_support", VStr "2.0")].

Definition audio_specs : list (string * value) :=
  [("codec", VStr "Realtek ALC4082"); ("dac", VStr "ESS SABRE9018Q2C");
   ("snr", VStr "130dB"); ("amplifier", VStr "Texas Instruments");
   ("isolation", VStr "EMI Shielding")].

Definition network_specs : list (string * value) :=
  [("ethernet_1", VStr "10 GbE"); ("ethernet_2", VStr "2.5 GbE");
   ("wifi", VStr "WiFi 6E"); ("bluetooth", VStr "5.3")].

Definition thunderbolt_specs : list (string * value) :=
  [("speed", VStr "40 Gbps"); ("power_delivery", VStr "100W");
   ("display_support", VStr "8K@60Hz")].

Definition pcie_x16_specs : list (string * value) :=
  [("version", VStr "PCIe 5.0"); ("lanes", VInt 16);
   ("reinforced", VBool true); ("bifurcation", VStr "x8/x8 capable")].

Definition pcie_x4_specs : list (string * value) :=
  [("version", VStr "PCIe 4.0"); ("lanes", VInt 4)].

Definition pcie_x1_specs : list (string * value) :=
  [("version", VStr "PCIe 3.0"); ("lanes", VInt 1)].

(** ** class Mainboard *)

(** [[MainboardComponent(kind, specs) for _ in range(n)]] *)
Definition components (n : nat) (kind : string)
    (specs : list (string * value)) : M (list value) :=
  list_comp (range n) (fun _ => MainboardComponent_new kind specs VNone).

Definition initialize_components (self : value) : M unit :=
  (* Core Components *)
  c <- MainboardComponent_new "CPU Socket" cpu_socket_specs VNone ;;
  setattr self "cpu_socket" c ;;;
  c <- MainboardComponent_new "Chipset" chipset_specs VNone ;;
  setattr self "chipset" c ;;;
  (* Memory Configuration *)
  l <- components 4 "RAM Slot" ram_slot_specs ;;
  setattr self "memory_slots" (VList l) ;;;
  (* Storage Interfaces *)
  l <- components 4 "M.2 Slot" m2_slot_specs ;;
  setattr self "m2_slots" (VList l) ;;;
  l <- components 8 "SATA Port" sata_port_specs ;;
  setattr self "sata_ports" (VList l) ;;;
  (* Power Delivery System *)
  c <- MainboardComponent_new "VRM" vrm_specs VNone ;;
  setattr self "vrm" c ;;;
  (* Cooling System *)
  l <- components 8 "Fan Header" fan_header_specs ;;
  setattr self "fan_headers" (VList l) ;;;
  l <- components 2 "Pump Header" pump_header_specs ;;
  setattr self "pump_headers" (VList l) ;;;
  (* RGB Ecosystem *)
  la <- components 3 "ARGB Header" argb_header_specs ;;
  lt <- components 2 "RGB Header" rgb_header_specs ;;
  setattr self "rgb_headers"
    (VDict [("addressable", VList la); ("traditional", VList lt)]) ;;;
  (* Debug and Monitoring *)
  c <- MainboardComponent_new "Debug System" debug_specs VNone ;;
  setattr self "debug_features" c ;;;
  (* BIOS/UEFI System *)
  c <- MainboardComponent_new "BIOS" bios_specs VNone ;;
  setattr self "bios_system" c ;;;
  (* Audio System *)
  c <- MainboardComponent_new "Audio" audio_specs VNone ;;
  setattr self "audio_system" c ;;;
  (* Network Interfaces *)
  c <- MainboardComponent_new "Network" network_specs VNone ;;
  setattr self "network" c ;;;
  (* Thunderbolt/USB *)
  l <- components 2 "Thunderbolt 4" thunderbolt_specs ;;
  setattr self "thunderbolt" (VList l) ;;;
  (* PCIe Configuration *)
  l16 <- components 2 "PCIe x16" pcie_x16_specs ;;
  l4 <- components 1 "PCIe x4" pcie_x4_specs ;;
  l1 <- components 2 "PCIe x1" pcie_x1_specs ;;
  setattr self "pcie_slots"
    (VDict [("x16", VList l16); ("x4", VList l4); ("x1", VList l1)]).

(** [Mainboard.__init__(self, form_factor)] *)
Definition Mainboard_init (self : value) (form_factor : string) : M unit :=
  setattr self "form_factor" (VStr form_factor) ;;;
  initialize_components self.

(** [Mainboard(form_factor)] *)
Definition Mainboard_new (form_factor : string) : M value :=
  a <- new_object Mainboard ;;
  Mainboard_init (VRef a) form_factor ;;;
  ret (VRef a).

(** [Mainboard()]: the default of the parameter is ['ATX']. *)
Definition Mainboard_default : M value := Mainboard_new "ATX".

(** [get_all_components(self)] *)
Definition get_all_components (F : framework) (self : value)
  : M (list value) :=
  names <- dir F self ;;
  for_each names
    (fun components attr_name =>
       attr <- getattr F self attr_name ;;
       is_component <- isinstance attr MainboardComponent ;;
       if is_component then ret (components ++ [attr])
       else
         match attr with
         | VList (first :: rest) =>
             first_is_component <- isinstance first MainboardComponent ;;
             if first_is_component
             then ret (components ++ first :: rest)
             else ret components
         | _ => ret components
         end)
    [].

(** [verify_all_components(self)].  Dictionaries of the model have string
    keys; every [component_type] the source assigns is a string. *)
Definition verify_all_components (F : framework) (self : value) : M value :=
  comps <- get_all_components F self ;;
  d <- for_each comps
         (fun d component =>
            k <- getattr F component "component_type" ;;
            v <- getattr F component "status" ;;
            match k with
            | VStr kind => ret (dict_set kind v d)
            | _ => raise (TypeError "unsupported key type")
            end)
         [] ;;
  ret (VDict d).

(** [monitor_temperatures(self)] *)
Definition monitor_temperatures (F : framework) (self : value) : M value :=
  f <- getattr F self "get_cpu_temp" ;;
  cpu <- call_value F f [] ;;
  f <- getattr F self "get_vrm_temp" ;;
  vrm <- call_value F f [] ;;
  slots <- getattr F self "m2_slots" ;;
  n <- len slots ;;
  m2 <- list_comp (range n)
          (fun i =>
             f <- getattr F self "get_m2_temp" ;;
             call_value F f [VInt (Z.of_nat i)]) ;;
  f <- getattr F self "get_chipset_temp" ;;
  chipset <- call_value F f [] ;;
  ret (VDict [("cpu", cpu); ("vrm", vrm); ("m2_slots", VList m2);
              ("chipset", chipset)]).

(** [manage_power_delivery(self)] *)
Definition manage_power_delivery (F : framework) (self : value) : M value :=
  vrm <- getattr F self "vrm" ;;
  cpu_power <- getattr F vrm "power_draw" ;;
  f <- getattr F self "calculate_total_power" ;;
  total <- call_value F f [] ;;
  f <- getattr F self "calculate_power_efficiency" ;;
  efficiency <- call_value F f [] ;;
  ret (VDict [("cpu_power", cpu_power); ("total_system_power", total);
              ("efficiency", efficiency)]).

(** [run_diagnostics(self)] *)
Definition run_diagnostics (F : framework) (self : value) : M value :=
  dbg <- getattr F self "debug_features" ;;
  specs <- getattr F dbg "specs" ;;
  post_code <- getitem specs "post_code" ;;
  component_status <- verify_all_components F self ;;
  temperature_status <- monitor_temperatures F self ;;
  power_status <- manage_power_delivery F self ;;
  ret (VDict [("post_code", post_code);
              ("component_status", component_status);
              ("temperature_status", temperature_status);
              ("power_status", power_status)]).

(** [call(self, inputs)] *)
Definition call (F : framework) (self : value) (inputs : value) : M value :=
  diagnostics <- run_diagnostics F self ;;
  ret diagnostics.

(** ** Observations on a store *)

(** The object a reference points at. *)
Definition object_at (s : store) (v : value) : option object :=
  match v with
  | VRef a => s !! a
  | _ => None
  end.

(** A field of the object a reference points at, when the read succeeds. *)
Definition field (s : store) (v : value) (n : string) : option value :=
  match object_at s v with
  | Some o =>
      match attr_of o n with
      | Ok x => Some x
      | Raise _ => None
      end
  | None => None
  end.

Definition is_component (s : store) (v : value) : bool :=
  match object_at s v with
  | Some o => class_eqb (obj_class o) MainboardComponent
  | None => false
  end.

(** What an attribute holds directly: one object, or a flat list. *)
Definition direct_refs (v : value) : list value :=
  match v with
  | VRef _ => [v]
  | VList items => items
  | _ => []
  end.

(** What an attribute holds in named groups of lists. *)
Definition grouped_refs (v : value) : list value :=
  match v with
  | VDict groups => flat_map (fun g => direct_refs (snd g)) groups
  | _ => []
  end.

(** The components a registry owns, as the specification counts them: those
    of its singleton fields and flat lists, and those of its named groups
    of lists. *)
Definition flat_components (s : store) (o : object) : list value :=
  List.filter (is_component s)
    (flat_map (fun kv => direct_refs (snd kv)) (obj_dict o)).

Definition grouped_components (s : store) (o : object) : list value :=
  List.filter (is_component s)
    (flat_map (fun kv => grouped_refs (snd kv)) (obj_dict o)).

Definition owned_components (s : store) (o : object) : list value :=
  flat_components s o ++ grouped_components s o.

(** The value under an attribute name, then under the keys of nested
    dictionaries. *)
Definition group_at (o : object) (path : list string) : option value :=
  match path with
  | [] => None
  | n :: keys =>
      fold_left
        (fun acc k =>
           match acc with
           | Some (VDict d) => dict_get k d
           | _ => None
           end)
        keys (dict_get n (obj_dict o))
  end.

(** One row per group of the specification: where the group is held, the
    kind of its components, and how many there are. *)
Definition topology : list (list string * string * nat) :=
  [(["cpu_socket"], "CPU Socket", 1);
   (["chipset"], "Chipset", 1);
   (["memory_slots"], "RAM Slot", 4);
   (["m2_slots"], "M.2 Slot", 4);
   (["sata_ports"], "SATA Port", 8);
   (["vrm"], "VRM", 1);
   (["fan_headers"], "Fan Header", 8);
   (["pump_headers"], "Pump Header", 2);
   (["rgb_headers"; "addressable"], "ARGB Header", 3);
   (["rgb_headers"; "traditional"], "RGB Header", 2);
   (["debug_features"], "Debug System", 1);
   (["bios_system"], "BIOS", 1);
   (["audio_system"], "Audio", 1);
   (["network"], "Network", 1);
   (["thunderbolt"], "Thunderbolt 4", 2);
   (["pcie_slots"; "x16"], "PCIe x16", 2);
   (["pcie_slots"; "x4"], "PCIe x4", 1);
   (["pcie_slots"; "x1"], "PCIe x1", 2)].

Definition total_count (rows : list (list string * string * nat)) : nat :=
  fold_right (fun row acc => snd row + acc) 0 rows.

(** The board [o] holds, at the place a row names, exactly the row's number
    of components, all of the row's kind. *)
Definition holds_row (s : store) (o : object)
    (row : list string * string * nat) : Prop :=
  exists v,
    group_at o (fst (fst row)) = Some v /\
    length (direct_refs v) = snd row /\
    Forall (fun c => is_component s c = true /\
                     field s c "component_type" = Some (VStr (snd (fst row))))
           (direct_refs v).

(** A dictionary built by assigning the pairs in order. *)
Definition assign (d : list (string * value)) (kv : string * value)
  : list (string * value) :=
  dict_set (fst kv) (snd kv) d.

Definition dict_of (kvs : list (string * value)) : list (string * value) :=
  fold_left assign kvs [].

(** ** Structural snapshots

    A snapshot follows every reference and forgets the addresses, so that
    two objects built alike have equal snapshots wherever they live. *)
Inductive snap : Type :=
| SVal (v : value)
| SList (items : list snap)
| SDict (entries : list (string * snap))
| SObj (c : class) (fields : list (string * snap))
| SCut.

Fixpoint snapshot (depth : nat) (s : store) (v : value) : snap :=
  match depth with
  | 0 => SCut
  | S d =>
      match v with
      | VRef _ =>
          match object_at s v with
          | Some o =>
              SObj (obj_class o)
                   (map (fun kv => (fst kv, snapshot d s (snd kv)))
                        (obj_dict o))
          | None => SCut
          end
      | VList items => SList (map (snapshot d s) items)
      | VDict entries =>
          SDict (map (fun kv => (fst kv, snapshot d s (snd kv))) entries)
      | _ => SVal v
      end
  end.

(** No part of the snapshot was cut off. *)
Fixpoint complete (depth : nat) (x : snap) : bool :=
  match depth with
  | 0 => false
  | S d =>
      match x with
      | SVal _ => true
      | SList items => forallb (complete d) items
      | SDict entries => forallb (fun kv => complete d (snd kv)) entries
      | SObj _ fields => forallb (fun kv => complete d (snd kv)) fields
      | SCut => false
      end
  end.

Definition snapshot_depth : nat := 8.

(** No reference occurs in [v], looked at as deep as a snapshot looks. *)
Fixpoint ref_free (depth : nat) (v : value) : bool :=
  match depth with
  | 0 => true
  | S d =>
      match v with
      | VRef _ => false
      | VList items => forallb (ref_free d) items
      | VDict entries => forallb (fun kv => ref_free d (snd kv)) entries
      | _ => true
      end
  end.

Definition without_field (n : string) (x : snap) : snap :=
  match x with
  | SObj c fields =>
      SObj c (List.filter (fun kv => negb (String.eqb (fst kv) n)) fields)
  | _ => x
  end.

Definition snap_field (n : string) (x : snap) : option snap :=
  match x with
  | SObj _ fields => dict_get n fields
  | _ => None
  end.

(** The component snapshots a board's snapshot holds, group by group. *)
Definition snap_components (x : snap) : list snap :=
  match x with
  | SObj _ fields =>
      flat_map
        (fun kv =>
           match snd kv with
           | SObj _ _ => [snd kv]
           | SList items => items
           | SDict groups =>
               flat_map
                 (fun g =>
                    match snd g with
                    | SList items => items
                    | _ => []
                    end)
                 groups
           | _ => []
           end)
        fields
  | _ => []
  end.

(** A computation that never writes. *)
Definition read_only {A : Type} (m : M A) : Prop :=
  forall s, snd (m s) = s.

(** ** What construction leaves in the store *)

(** The object that [MainboardComponent(kind, specs)] allocates. *)
Definition component_object (kind : string) (specs : list (string * value))
  : object :=
  Object MainboardComponent
    [("component_type", VStr kind); ("specs", VDict specs);
     ("location", VNone); ("connections", VList []);
     ("temperature", VInt 0); ("power_draw", VInt 0);
     ("status", VStr "operational")].

(** References to the objects at the offsets [ks] from [base]. *)
Definition refs_at (base : addr) (ks : list nat) : list value :=
  map (fun k => VRef (base + k)) ks.

Definition refs (base : addr) (first n : nat) : list value :=
  refs_at base (seq first n).

(** The attribute dictionary of a board whose object sits at [base]; its
    components follow it in allocation order. *)
Definition board_dict (base : addr) (form_factor : string)
  : list (string * value) :=
  [("form_factor", VStr form_factor);
   ("cpu_socket", VRef (base + 1));
   ("chipset", VRef (base + 2));
   ("memory_slots", VList (refs base 3 4));
   ("m2_slots", VList (refs base 7 4));
   ("sata_ports", VList (refs base 11 8));
   ("vrm", VRef (base + 19));
   ("fan_headers", VList (refs base 20 8));
   ("pump_headers", VList (refs base 28 2));
   ("rgb_headers",
    VDict [("addressable", VList (refs base 30 3));
           ("traditional", VList (refs base 33 2))]);
   ("debug_features", VRef (base + 35));
   ("bios_system", VRef (base + 36));
   ("audio_system", VRef (base + 37));
   ("network", VRef (base + 38));
   ("thunderbolt", VList (refs base 39 2));
   ("pcie_slots",
    VDict [("x16", VList (refs base 41 2));
           ("x4", VList (refs base 43 1));
           ("x1", VList (refs base 44 2))])].

Definition fresh_components : list object :=
  [component_object "CPU Socket" cpu_socket_specs;
   component_object "Chipset" chipset_specs]
  ++ repeat (component_object "RAM Slot" ram_slot_specs) 4
  ++ repeat (component_object "M.2 Slot" m2_slot_specs) 4
  ++ repeat (component_object "SATA Port" sata_port_specs) 8
  ++ [component_object "VRM" vrm_specs]
  ++ repeat (component_object "Fan Header" fan_header_specs) 8
  ++ repeat (component_object "Pump Header" pump_header_specs) 2
  ++ repeat (component_object "ARGB Header" argb_header_specs) 3
  ++ repeat (component_object "RGB Header" rgb_header_specs) 2
  ++ [component_object "Debug System" debug_specs;
      component_object "BIOS" bios_specs;
      component_object "Audio" audio_specs;
      component_object "Network" network_specs]
  ++ repeat (component_object "Thunderbolt 4" thunderbolt_specs) 2
  ++ repeat (component_object "PCIe x16" pcie_x16_specs) 2
  ++ repeat (component_object "PCIe x4" pcie_x4_specs) 1
  ++ repeat (component_object "PCIe x1" pcie_x1_specs) 2.

Definition board_object (base : addr) (form_factor : string) : object :=
  Object Mainboard (board_dict base form_factor).

Definition board_objects (base : addr) (form_factor : string) : list object :=
  board_object base form_factor :: fresh_components.

(** What the scan of [get_all_components] takes from each attribute of a
    board at [base], in the order of [board_dict], and from the eight names
    of the class body. *)
Definition board_taken (base : addr) : list (list value) :=
  [[];
   [VRef (base + 1)];
   [VRef (base + 2)];
   refs base 3 4;
   refs base 7 4;
   refs base 11 8;
   [VRef (base + 19)];
   refs base 20 8;
   refs base 28 2;
   [];
   [VRef (base + 35)];
   [VRef (base + 36)];
   [VRef (base + 37)];
   [VRef (base + 38)];
   refs base 39 2;
   []]
  ++ repeat [] 8.

(** Offsets, from the board, of the components held in singleton fields and
    flat lists, in the order of their attribute names. *)
Definition flat_offsets : list nat :=
  [37; 36; 2; 1; 35]
  ++ seq 20 8 ++ seq 7 4 ++ seq 3 4
  ++ [38] ++ seq 28 2 ++ seq 11 8 ++ seq 39 2 ++ [19].

(** The same offsets in the order the attributes were assigned. *)
Definition flat_held : list nat :=
  [1; 2] ++ seq 3 4 ++ seq 7 4 ++ seq 11 8 ++ [19] ++ seq 20 8 ++ seq 28 2
  ++ [35; 36; 37; 38] ++ seq 39 2.

(** Offsets of the components held in the named groups. *)
Definition grouped_offsets : list nat := seq 30 5 ++ seq 41 5.

(** The thirteen kinds of the components in singleton fields and flat
    lists, in the order of first visit. *)
Definition flat_kinds : list string :=
  ["Audio"; "BIOS"; "Chipset"; "CPU Socket"; "Debug System"; "Fan Header";
   "M.2 Slot"; "RAM Slot"; "Network"; "Pump Header"; "SATA Port";
   "Thunderbolt 4"; "VRM"].

(** The kind of the component at each offset of [flat_offsets], paired with
    its status. *)
Definition flat_kinds_and_status : list (string * value) :=
  map (fun k => (k, VStr "operational"))
    (["Audio"; "BIOS"; "Chipset"; "CPU Socket"; "Debug System"]
     ++ repeat "Fan Header" 8 ++ repeat "M.2 Slot" 4 ++ repeat "RAM Slot" 4
     ++ ["Network"] ++ repeat "Pump Header" 2 ++ repeat "SATA Port" 8
     ++ repeat "Thunderbolt 4" 2 ++ ["VRM"]).



(** The store seen from an object allocated after the prefix [p]. *)
Definition framed (p l : store) : store := p ++ l.

(** ** The scan of [get_all_components] as a function of the store *)

(** What the loop of [get_all_components] takes from one attribute value:
    the value itself when it is a component, the whole list when it is a
    list that starts with a component, nothing otherwise. *)
Definition contribution (s : store) (attr : value) : result (list value) :=
  match attr with
  | VRef a =>
      match s !! a with
      | Some o =>
          Ok (if class_eqb (obj_class o) MainboardComponent then [attr]
              else [])
      | None => Raise (Dangling a)
      end
  | VList (VRef b :: rest) =>
      match s !! b with
      | Some o =>
          Ok (if class_eqb (obj_class o) MainboardComponent
              then VRef b :: rest else [])
      | None => Raise (Dangling b)
      end
  | _ => Ok []
  end.

(** What the loop takes from the attribute [n] of the object [o]. *)
Definition taken (F : framework) (s : store) (o : object) (n : string)
  : result (list value) :=
  match read F s o n with
  | Ok attr => contribution s attr
  | Raise e => Raise e
  end.

(** The loop of [get_all_components] over the names [names] of the object
    [o], as a function of the store. *)
Fixpoint collect (F : framework) (s : store) (o : object)
    (names : list string) (acc : list value) : result (list value) :=
  match names with
  | [] => Ok acc
  | n :: names' =>
      match taken F s o n with
      | Ok l => collect F s o names' (acc ++ l)
      | Raise e => Raise e
      end
  end.

(** The source defines [n] on the object [o]: an instance attribute or a
    name of the class body. *)
Definition defines (o : object) (n : string) : bool :=
  match attr_of o n with
  | Ok _ => true
  | Raise _ => false
  end.

(** The names [dir] lists for [o] that only the base classes define. *)
Definition inherited_scanned (F : framework) (o : object) : list string :=
  List.filter (fun n => negb (defines o n)) (scanned_names F o).

Definition or_nothing (r : result (list value)) : list value :=
  match r with
  | Ok l => l
  | Raise _ => []
  end.

(** What the loop takes from the attributes that only the base classes
    define. *)
Definition inherited_components (F : framework) (s : store) (o : object)
  : list value :=
  flat_map (fun n => or_nothing (taken F s o n)) (inherited_scanned F o).

(** ** Two frameworks *)

(** A framework that adds nothing: the base classes read as plain object
    containers. *)
Definition bare : framework :=
  Framework (fun _ => [])
            (fun n _ _ => Raise (Unmodelled n))
            (fun n _ => raise (Unmodelled n)).

(** The references an object holds in its attributes: directly, in a list,
    or in a list of a dictionary. *)
Definition held_refs (o : object) : list value :=
  flat_map (fun kv => direct_refs (snd kv) ++ grouped_refs (snd kv))
           (obj_dict o).

Definition component_class (cls : list class) (v : value) : bool :=
  match v with
  | VRef a =>
      match cls !! a with
      | Some c => class_eqb c MainboardComponent
      | None => false
      end
  | _ => false
  end.

(** A framework whose [Mainboard] has one inherited attribute, [layers]:
    the list of the components found in the attributes, those inside
    dictionaries included, in the way [Model.layers] lists the
    sub-layers. *)
Definition sub_layers : framework :=
  Framework
    (fun c =>
       match c with
       | Mainboard => ["layers"]
       | MainboardComponent => []
       end)
    (fun n o cls =>
       if String.eqb n "layers"
       then Ok (VList (List.filter (component_class cls) (held_refs o)))
       else Raise (AttributeError (class_name (obj_class o)) n))
    (fun n _ => raise (Unmodelled n)).

(** ** Observations for the properties beyond the claims *)

Definition allocated (s : store) (a : addr) : bool :=
  match s !! a with
  | Some _ => true
  | None => false
  end.

(** The references that [get_all_components] follows from an attribute
    value point at objects: always so in Python. *)
Definition head_allocated (s : store) (v : value) : bool :=
  match v with
  | VRef a => allocated s a
  | VList (VRef b :: _) => allocated s b
  | _ => true
  end.

(** [c] is taken from the attribute value [v]: it is [v], a component, or
    it is a member of the list [v], whose first element is a component. *)
Definition listed (s : store) (v c : value) : Prop :=
  (v = c /\ is_component s c = true) \/
  (exists first rest,
      v = VList (first :: rest) /\ is_component s first = true /\
      In c (first :: rest)).

(** The kind of a value, when it has a [component_type] that is a string. *)
Definition kind_of (s : store) (c : value) : option string :=
  match field s c "component_type" with
  | Some (VStr k) => Some k
  | _ => None
  end.

(** The pair that [verify_all_components] assigns for [c]. *)
Definition entry_of (s : store) (c : value) : option (string * value) :=
  match kind_of s c, field s c "status" with
  | Some k, Some v => Some (k, v)
  | _, _ => None
  end.

Fixpoint entries (s : store) (cs : list value)
  : option (list (string * value)) :=
  match cs with
  | [] => Some []
  | c :: cs' =>
      match entry_of s c, entries s cs' with
      | Some e, Some es => Some (e :: es)
      | _, _ => None
      end
  end.

Definition refers_to (b : addr) (v : value) : bool :=
  match v with
  | VRef a => Nat.eqb a b
  | _ => false
  end.

Definition has_kind (s : store) (k : string) (c : value) : bool :=
  match kind_of s c with
  | Some k' => String.eqb k' k
  | None => false
  end.

(** [y] is another object of the kind of the object at [b]. *)
Definition other_of_kind (s : store) (b : addr) (y : value) : bool :=
  negb (refers_to b y) &&
  match kind_of s (VRef b) with
  | Some k => has_kind s k y
  | None => false
  end.

(** Every place where the object at [b] is listed in [cs] is followed by
    another object of the same kind. *)
Fixpoint masked (s : store) (b : addr) (cs : list value) : bool :=
  match cs with
  | [] => true
  | x :: cs' =>
      (if refers_to b x then existsb (other_of_kind s b) cs' else true)
      && masked s b cs'
  end.

(** * Proofs *)

(** ** Reading and writing past a prefix of the store *)

Section StoreLemmas.

Variables p l : store.

Lemma lookup_frame (k : nat) : (p ++ l) !! (length p + k) = l !! k.
Proof.
  rewrite lookup_app_r by lia.
  f_equal. lia.
Qed.

Lemma deref_frame (k : nat) :
  deref (length p + k) (p ++ l) =
  match l !! k with
  | Some o => (Ok o, p ++ l)
  | None => (Raise (Dangling (length p + k)), p ++ l)
  end.
Proof. unfold deref. now rewrite lookup_frame. Qed.

Lemma setattr_frame (k : nat) (n : string) (v : value) :
  String.eqb n "__dict__" = false ->
  setattr (VRef (length p + k)) n v (p ++ l) =
  match l !! k with
  | Some o => (Ok tt, p ++ <[k := set_field n v o]> l)
  | None => (Raise (Dangling (length p + k)), p ++ l)
  end.
Proof.
  intros Hn. unfold setattr. rewrite lookup_frame, Hn.
  destruct (l !! k) as [o|]; [|reflexivity].
  f_equal. rewrite insert_app_r_alt by lia.
  do 2 f_equal. lia.
Qed.

Lemma new_object_frame (c : class) :
  new_object c (p ++ l) =
  (Ok (length p + length l), p ++ (l ++ [Object c []])).
Proof. unfold new_object. now rewrite length_app, app_assoc. Qed.

End StoreLemmas.

(** ** The constructors *)

Lemma MainboardComponent_new_frame (p l : store) kind specs :
  MainboardComponent_new kind specs VNone (p ++ l) =
  (Ok (VRef (length p + length l)),
   p ++ (l ++ [component_object kind specs])).
Proof.
  unfold MainboardComponent_new, MainboardComponent_init, bind.
  rewrite new_object_frame.
  repeat (rewrite setattr_frame by reflexivity;
          rewrite lookup_app_r, Nat.sub_diag by lia;
          cbn [lookup list_lookup];
          rewrite insert_app_r_alt, Nat.sub_diag by lia;
          cbn [insert list_insert]).
  reflexivity.
Qed.

Lemma list_comp_new_frame {A : Type} (xs : list A) kind specs :
  forall p l : store,
    list_comp xs (fun _ => MainboardComponent_new kind specs VNone) (p ++ l) =
    (Ok (refs (length p) (length l) (length xs)),
     p ++ (l ++ repeat (component_object kind specs) (length xs))).
Proof.
  induction xs as [|x xs IH]; intros p l.
  - cbn. now rewrite app_nil_r.
  - cbn [list_comp]. unfold bind at 1.
    rewrite MainboardComponent_new_frame.
    unfold bind at 1. rewrite IH.
    unfold ret, refs, refs_at. rewrite length_app, <- app_assoc. cbn.
    now rewrite Nat.add_1_r.
Qed.

Lemma components_frame (p l : store) n kind specs :
  components n kind specs (p ++ l) =
  (Ok (refs (length p) (length l) n),
   p ++ (l ++ repeat (component_object kind specs) n)).
Proof.
  unfold components, range. rewrite list_comp_new_frame.
  now rewrite length_seq.
Qed.

Ltac run_step :=
  unfold bind at 1;
  first [ rewrite MainboardComponent_new_frame
        | rewrite components_frame
        | rewrite setattr_frame by reflexivity ];
  cbn [length app repeat lookup list_lookup insert list_insert set_field
       obj_class obj_dict dict_set String.eqb Ascii.eqb Bool.eqb].

Lemma initialize_components_frame (p : store) (ff : string) :
  initialize_components (VRef (length p + 0))
    (p ++ [Object Mainboard [("form_factor", VStr ff)]]) =
  (Ok tt, p ++ board_objects (length p) ff).
Proof.
  unfold initialize_components.
  repeat run_step.
  rewrite setattr_frame by reflexivity.
  reflexivity.
Qed.

(** Construction succeeds in every store: it appends the board and its 45
    components and returns the board's address. *)
Lemma Mainboard_new_store (ff : string) (s : store) :
  Mainboard_new ff s = (Ok (VRef (length s)), s ++ board_objects (length s) ff).
Proof.
  unfold Mainboard_new, Mainboard_init, bind.
  rewrite <- (app_nil_r s) at 1.
  rewrite new_object_frame. cbn [length app].
  rewrite setattr_frame by reflexivity.
  cbn [lookup list_lookup insert list_insert].
  unfold set_field. cbn [obj_class obj_dict dict_set].
  rewrite initialize_components_frame.
  unfold ret. now rewrite Nat.add_0_r.
Qed.

Lemma for_each_cons {A B : Type} (x : A) (xs : list A)
    (body : B -> A -> M B) (acc : B) (s : store) :
  for_each (x :: xs) body acc s =
  match body acc x s with
  | (Ok acc', s') => for_each xs body acc' s'
  | (Raise e, s') => (Raise e, s')
  end.
Proof. reflexivity. Qed.

Section Reads.

Variables (F : framework) (p l : store).

Lemma lookup_framed (k : nat) (o : object) :
  l !! k = Some o -> framed p l !! (length p + k) = Some o.
Proof. intros H. unfold framed. now rewrite lookup_frame. Qed.

Lemma object_at_framed (k : nat) (o : object) :
  l !! k = Some o -> object_at (framed p l) (VRef (length p + k)) = Some o.
Proof. apply lookup_framed. Qed.

Lemma deref_framed (k : nat) (o : object) :
  l !! k = Some o ->
  deref (length p + k) (framed p l) = (Ok o, framed p l).
Proof. intros H. unfold framed. now rewrite deref_frame, H. Qed.

Lemma getattr_framed (k : nat) (o : object) (n : string) :
  l !! k = Some o ->
  getattr F (VRef (length p + k)) n (framed p l) =
  (read F (framed p l) o n, framed p l).
Proof.
  intros H. unfold getattr, bind. now rewrite (deref_framed _ _ H).
Qed.

End Reads.

(** ** Reading attributes *)

Lemma getattr_at (F : framework) (s : store) (a : addr) (o : object)
    (n : string) :
  s !! a = Some o -> getattr F (VRef a) n s = (read F s o n, s).
Proof. intros H. unfold getattr, bind, deref. now rewrite H. Qed.

Lemma read_own (F : framework) (s : store) (o : object) (n : string)
    (v : value) :
  attr_of o n = Ok v -> read F s o n = Ok v.
Proof. intros H. unfold read. now rewrite H. Qed.

Lemma getattr_field (F : framework) (s : store) (c : value) (n : string)
    (x : value) :
  field s c n = Some x -> getattr F c n s = (Ok x, s).
Proof.
  unfold field, object_at. destruct c; try discriminate.
  destruct (s !! a) as [o|] eqn:Ho; [|discriminate].
  rewrite (getattr_at _ _ _ _ _ Ho).
  destruct (attr_of o n) as [y|] eqn:Hy; [|discriminate].
  intros [= ->]. now rewrite (read_own _ _ _ _ _ Hy).
Qed.

Lemma isinstance_at (s : store) (a : addr) (o : object) (c : class) :
  s !! a = Some o ->
  isinstance (VRef a) c s = (Ok (class_eqb (obj_class o) c), s).
Proof. intros H. unfold isinstance, bind, deref. now rewrite H. Qed.

Lemma isinstance_dangling (s : store) (a : addr) (c : class) :
  s !! a = None -> isinstance (VRef a) c s = (Raise (Dangling a), s).
Proof. intros H. unfold isinstance, bind, deref. now rewrite H. Qed.

Lemma mem_string_In (n : string) (l : list string) :
  mem_string n l = true <-> In n l.
Proof.
  unfold mem_string. rewrite existsb_exists. split.
  - intros (x & Hx & E). apply String.eqb_eq in E. now subst.
  - intros H. exists n. split; [exact H|apply String.eqb_refl].
Qed.

Lemma dict_get_In {V : Type} (k : string) (v : V) (d : list (string * V)) :
  dict_get k d = Some v -> In (k, v) d.
Proof.
  induction d as [|[k0 v0] d IH]; cbn; [discriminate|].
  destruct (String.eqb_spec k k0) as [->|Hne].
  - intros [= ->]. now left.
  - intros H. right. now apply IH.
Qed.

Lemma dict_get_key {V : Type} (k : string) (d : list (string * V)) :
  In k (dict_keys d) -> exists v, dict_get k d = Some v.
Proof.
  induction d as [|[k0 v0] d IH]; cbn; [tauto|].
  destruct (String.eqb_spec k k0) as [->|Hne]; [eauto|].
  intros [E|H]; [congruence|auto].
Qed.

Lemma dict_get_None {V : Type} (k : string) (d : list (string * V)) :
  dict_get k d = None -> ~ In k (dict_keys d).
Proof.
  intros H Hin. apply dict_get_key in Hin as [v Hv]. congruence.
Qed.

(** The source defines exactly the names of the instance dictionary and of
    the class body. *)
Lemma defines_In (o : object) (n : string) :
  defines o n = true <->
  In n (dict_keys (obj_dict o) ++ class_attrs (obj_class o)).
Proof.
  unfold defines, attr_of. rewrite in_app_iff.
  destruct (dict_get n (obj_dict o)) as [v|] eqn:Hv.
  - split; [|reflexivity]. intros _. left.
    unfold dict_keys. apply in_map_iff. exists (n, v).
    split; [reflexivity|now apply dict_get_In].
  - apply dict_get_None in Hv.
    destruct (mem_string n (class_attrs (obj_class o))) eqn:Hm.
    + apply mem_string_In in Hm. tauto.
    + split; [discriminate|]. intros [H|H]; [contradiction|].
      apply mem_string_In in H. congruence.
Qed.

(** ** The names [dir] lists: sorted, each once *)

Lemma compare_trans (a b c : string) :
  String.compare a b = Lt -> String.compare b c = Lt ->
  String.compare a c = Lt.
Proof.
  intros H1 H2.
  exact (@StrictOrder_Transitive _ _ String_as_OT.lt_strorder a b c H1 H2).
Qed.

Lemma compare_irrefl (a : string) : String.compare a a <> Lt.
Proof.
  intros H.
  exact (@StrictOrder_Irreflexive _ _ String_as_OT.lt_strorder a H).
Qed.

Lemma insert_name_In (m : string) (l : list string) (n : string) :
  In n (insert_name m l) <-> n = m \/ In n l.
Proof.
  induction l as [|x l IH]; cbn.
  - intuition.
  - destruct (String.compare m x) eqn:E; cbn.
    + apply String.compare_eq_iff in E. subst. intuition.
    + intuition.
    + rewrite IH. intuition.
Qed.

Lemma sorted_names_In (l : list string) (n : string) :
  In n (sorted_names l) <-> In n l.
Proof.
  unfold sorted_names. induction l as [|x l IH]; cbn; [tauto|].
  rewrite insert_name_In, IH. intuition.
Qed.

Lemma insert_name_sorted (m : string) (l : list string) :
  StronglySorted (fun a b => String.compare a b = Lt) l ->
  StronglySorted (fun a b => String.compare a b = Lt) (insert_name m l).
Proof.
  induction 1 as [|x l Hl IH Hx]; cbn.
  - repeat constructor.
  - destruct (String.compare m x) eqn:E.
    + now constructor.
    + constructor; [now constructor|].
      constructor; [exact E|].
      rewrite List.Forall_forall in Hx |- *. intros y Hy.
      apply compare_trans with x; auto.
    + constructor; [exact IH|].
      rewrite List.Forall_forall in Hx |- *. intros y Hy.
      apply insert_name_In in Hy as [->|Hy]; [|auto].
      rewrite String.compare_antisym, E. reflexivity.
Qed.

Lemma sorted_names_sorted (l : list string) :
  StronglySorted (fun a b => String.compare a b = Lt) (sorted_names l).
Proof.
  unfold sorted_names. induction l as [|x l IH]; cbn.
  - constructor.
  - now apply insert_name_sorted.
Qed.

Lemma sorted_names_NoDup (l : list string) : NoDup (sorted_names l).
Proof.
  generalize (sorted_names_sorted l). generalize (sorted_names l).
  induction 1 as [|x k Hk IH Hx]; constructor; [|exact IH].
  intros Hin. apply list_elem_of_In in Hin.
  rewrite List.Forall_forall in Hx.
  exact (compare_irrefl x (Hx x Hin)).
Qed.

Lemma NoDup_list_filter {A : Type} (f : A -> bool) (l : list A) :
  NoDup l -> NoDup (List.filter f l).
Proof.
  induction 1 as [|x l Hx Hl IH]; cbn [List.filter]; [constructor|].
  destruct (f x); [|exact IH].
  constructor; [|exact IH].
  rewrite list_elem_of_In, filter_In. rewrite list_elem_of_In in Hx. tauto.
Qed.

(** The names the source defines are listed once each, whatever the base
    classes add. *)
Lemma scanned_own (F : framework) (o : object) :
  NoDup (dict_keys (obj_dict o) ++ class_attrs (obj_class o)) ->
  Permutation (List.filter (defines o) (scanned_names F o))
              (dict_keys (obj_dict o) ++ class_attrs (obj_class o)).
Proof.
  intros Hnd. apply NoDup_Permutation.
  - apply NoDup_list_filter. unfold scanned_names. apply sorted_names_NoDup.
  - exact Hnd.
  - intros n. rewrite !list_elem_of_In, filter_In, defines_In.
    unfold scanned_names. rewrite sorted_names_In, app_assoc, in_app_iff.
    tauto.
Qed.

Lemma inherited_scanned_In (F : framework) (o : object) (n : string) :
  In n (inherited_scanned F o) <->
  In n (inherited_names F (obj_class o)) /\ defines o n = false.
Proof.
  unfold inherited_scanned, scanned_names.
  rewrite filter_In, sorted_names_In, app_assoc, in_app_iff, negb_true_iff.
  rewrite <- defines_In. split; [|tauto].
  intros [[H|H] Hd]; [congruence|tauto].
Qed.

Lemma scanned_names_In (F : framework) (o : object) (n : string) :
  In n (scanned_names F o) <->
  defines o n = true \/ In n (inherited_scanned F o).
Proof.
  rewrite inherited_scanned_In. unfold scanned_names.
  rewrite sorted_names_In, app_assoc, in_app_iff, <- defines_In.
  destruct (defines o n); intuition congruence.
Qed.

(** ** The loop of [get_all_components] *)

(** One round of the loop is one step of [collect]. *)
Lemma collect_step (F : framework) (s : store) (a : addr) (o : object)
    (n : string) (acc : list value) :
  s !! a = Some o ->
  (attr <- getattr F (VRef a) n ;;
   is_component <- isinstance attr MainboardComponent ;;
   if is_component then ret (acc ++ [attr])
   else
     match attr with
     | VList (first :: rest) =>
         first_is_component <- isinstance first MainboardComponent ;;
         if first_is_component then ret (acc ++ first :: rest) else ret acc
     | _ => ret acc
     end) s =
  match taken F s o n with
  | Ok l => (Ok (acc ++ l), s)
  | Raise e => (Raise e, s)
  end.
Proof.
  intros Ho. unfold bind at 1. rewrite (getattr_at _ _ _ _ _ Ho).
  unfold taken.
  destruct (read F s o n) as [attr|e]; [|reflexivity].
  destruct attr as [| | | |[|first rest]| |b|];
    try (cbn; now rewrite ?app_nil_r).
  - (* a list *)
    unfold bind at 1. cbn [isinstance]. unfold ret at 1.
    destruct first as [| | | | | |b|];
      try (cbn; now rewrite ?app_nil_r).
    unfold bind. cbn [contribution].
    destruct (s !! b) as [ob|] eqn:Hb.
    + rewrite (isinstance_at _ _ _ _ Hb).
      destruct (class_eqb (obj_class ob) MainboardComponent);
        cbn; now rewrite ?app_nil_r.
    + now rewrite (isinstance_dangling _ _ _ Hb).
  - (* an object *)
    unfold bind. cbn [contribution].
    destruct (s !! b) as [ob|] eqn:Hb.
    + rewrite (isinstance_at _ _ _ _ Hb).
      destruct (class_eqb (obj_class ob) MainboardComponent);
        cbn; now rewrite ?app_nil_r.
    + now rewrite (isinstance_dangling _ _ _ Hb).
Qed.

(** [get_all_components] runs [collect] over the names [dir] lists and
    leaves the store alone. *)
Lemma get_all_components_run (F : framework) (s : store) (a : addr)
    (o : object) :
  s !! a = Some o ->
  get_all_components F (VRef a) s =
  (collect F s o (scanned_names F o) [], s).
Proof.
  intros Ho. unfold get_all_components, dir.
  unfold bind at 1 2. unfold deref. rewrite Ho. unfold ret at 1.
  generalize (scanned_names F o).
  intros names. generalize (@nil value) at 2 3. intros acc. revert acc.
  induction names as [|n names IH]; intros acc; [reflexivity|].
  rewrite for_each_cons. cbv beta. rewrite (collect_step _ _ _ _ _ _ Ho).
  cbn [collect].
  destruct (taken F s o n) as [l|e]; [|reflexivity].
  apply IH.
Qed.

Lemma get_all_components_dangling (F : framework) (s : store) (a : addr) :
  s !! a = None ->
  get_all_components F (VRef a) s = (Raise (Dangling a), s).
Proof.
  intros Ho. unfold get_all_components, dir, bind, deref. now rewrite Ho.
Qed.

Section Collect.

Variables (F : framework) (s : store) (o : object).

(** When the loop returns, every name was read and what it returns is what
    the names contributed, in their order. *)
Lemma collect_Ok (names : list string) :
  forall acc cs,
    collect F s o names acc = Ok cs ->
    cs = acc ++ flat_map (fun n => or_nothing (taken F s o n)) names /\
    forall n, In n names -> exists l, taken F s o n = Ok l.
Proof.
  induction names as [|n names IH]; intros acc cs H; cbn [collect] in H.
  - injection H as <-. cbn. rewrite app_nil_r. split; [reflexivity|].
    intros n [].
  - destruct (taken F s o n) as [l|e] eqn:Hn; [|discriminate].
    destruct (IH _ _ H) as [-> Hall]. split.
    + cbn [flat_map]. rewrite Hn. cbn [or_nothing]. now rewrite app_assoc.
    + intros m [<-|Hm]; [eauto|auto].
Qed.

(** When the loop raises, one of the names did. *)
Lemma collect_Raise (names : list string) :
  forall acc e,
    collect F s o names acc = Raise e ->
    exists n, In n names /\ taken F s o n = Raise e.
Proof.
  induction names as [|n names IH]; intros acc e H; cbn [collect] in H.
  - discriminate.
  - destruct (taken F s o n) as [l|e'] eqn:Hn.
    + destruct (IH _ _ H) as (m & Hm & Hr). exists m. split; [now right|auto].
    + injection H as ->. exists n. split; [now left|exact Hn].
Qed.

(** The loop returns when every name can be read. *)
Lemma collect_returns (names : list string) :
  (forall n, In n names -> exists l, taken F s o n = Ok l) ->
  forall acc, exists cs, collect F s o names acc = Ok cs.
Proof.
  induction names as [|n names IH]; intros H acc; cbn [collect].
  - eauto.
  - destruct (H n (or_introl eq_refl)) as [l ->].
    apply IH. intros m Hm. apply H. now right.
Qed.

End Collect.

Lemma flat_map_partition {A B : Type} (f : A -> list B) (keep : A -> bool)
    (l : list A) :
  Permutation (flat_map f l)
    (flat_map f (List.filter keep l) ++
     flat_map f (List.filter (fun x => negb (keep x)) l)).
Proof.
  induction l as [|x l IH]; [reflexivity|].
  cbn [flat_map List.filter]. destruct (keep x); cbn [negb flat_map].
  - rewrite <- app_assoc. now apply Permutation_app_head.
  - rewrite Permutation_app_swap_app. now apply Permutation_app_head.
Qed.

(** What the scan returns is, up to the order, what the names of the source
    contribute and what the names of the base classes contribute. *)
Lemma scan_parts (F : framework) (s : store) (o : object) (cs : list value) :
  NoDup (dict_keys (obj_dict o) ++ class_attrs (obj_class o)) ->
  collect F s o (scanned_names F o) [] = Ok cs ->
  Permutation cs
    (flat_map (fun n => or_nothing (taken F s o n))
              (dict_keys (obj_dict o) ++ class_attrs (obj_class o))
     ++ inherited_components F s o).
Proof.
  intros Hnd H. apply collect_Ok in H as [-> _]. cbn [app].
  rewrite (flat_map_partition _ (defines o)).
  apply Permutation_app; [|reflexivity].
  apply Permutation_flat_map. now apply scanned_own.
Qed.

(** ** Facts about the freshly built components *)

Lemma filter_all {A : Type} (f : A -> bool) (xs : list A) :
  Forall (fun x => f x = true) xs -> List.filter f xs = xs.
Proof.
  induction 1 as [|x xs Hx _ IH]; [reflexivity|].
  cbn. now rewrite Hx, IH.
Qed.

Lemma Forall_refs_at (P : value -> Prop) (base : addr) (ks : list nat) :
  Forall (fun k => P (VRef (base + k))) ks -> Forall P (refs_at base ks).
Proof.
  unfold refs_at. intros H. now apply Forall_map.
Qed.

Lemma in_refs_at (base : addr) (ks : list nat) (v : value) :
  In v (refs_at base ks) <-> exists k, v = VRef (base + k) /\ In k ks.
Proof.
  unfold refs_at. rewrite in_map_iff. split.
  - intros (k & <- & Hk). eauto.
  - intros (k & -> & Hk). eauto.
Qed.

Lemma NoDup_refs_at (base : addr) (ks : list nat) :
  NoDup ks -> NoDup (refs_at base ks).
Proof.
  unfold refs_at. intros H.
  assert (Inj eq eq (fun k => VRef (base + k))) as Hinj.
  { intros j k E. injection E. lia. }
  now apply (NoDup_fmap_2 (fun k => VRef (base + k))).
Qed.

Lemma length_refs_at (base : addr) (ks : list nat) :
  length (refs_at base ks) = length ks.
Proof. apply length_map. Qed.

Lemma incl_by_eval (l1 l2 : list nat) :
  forallb (fun k => existsb (Nat.eqb k) l2) l1 = true -> incl l1 l2.
Proof.
  intros H k Hk.
  rewrite forallb_forall in H. specialize (H k Hk).
  apply existsb_exists in H as (j & Hj & E).
  apply Nat.eqb_eq in E. now subst.
Qed.

Lemma disjoint_by_eval (l1 l2 : list nat) :
  forallb (fun k => negb (existsb (Nat.eqb k) l2)) l1 = true ->
  forall k, In k l1 -> ~ In k l2.
Proof.
  intros H k Hk Hk'.
  rewrite forallb_forall in H. specialize (H k Hk).
  apply negb_true_iff in H.
  assert (existsb (Nat.eqb k) l2 = true) as E.
  { apply existsb_exists. exists k. split; [exact Hk'|apply Nat.eqb_refl]. }
  congruence.
Qed.

(** Every object the constructor allocates after the board is a component
    in its initial state. *)
Lemma fresh_components_initial :
  Forall (fun o => obj_class o = MainboardComponent /\
                   attr_of o "status" = Ok (VStr "operational") /\
                   attr_of o "temperature" = Ok (VInt 0) /\
                   attr_of o "power_draw" = Ok (VInt 0) /\
                   attr_of o "location" = Ok VNone /\
                   attr_of o "connections" = Ok (VList []))
         fresh_components.
Proof.
  unfold fresh_components. cbn [repeat app].
  repeat (constructor; [repeat split; reflexivity|]).
  constructor.
Qed.

Lemma snapshot_ref (d : nat) (s : store) (a : addr) :
  snapshot (S d) s (VRef a) =
  match object_at s (VRef a) with
  | Some o =>
      SObj (obj_class o)
           (map (fun kv => (fst kv, snapshot d s (snd kv))) (obj_dict o))
  | None => SCut
  end.
Proof. reflexivity. Qed.

Lemma snapshot_list (d : nat) (s : store) (items : list value) :
  snapshot (S d) s (VList items) = SList (map (snapshot d s) items).
Proof. reflexivity. Qed.

Lemma snapshot_dict (d : nat) (s : store) (entries : list (string * value)) :
  snapshot (S d) s (VDict entries) =
  SDict (map (fun kv => (fst kv, snapshot d s (snd kv))) entries).
Proof. reflexivity. Qed.

(** A value without references has the same snapshot in every store. *)
Lemma snapshot_ref_free (d : nat) (s s' : store) :
  forall v, ref_free d v = true -> snapshot d s v = snapshot d s' v.
Proof.
  induction d as [|d IH]; intros v H; [reflexivity|].
  destruct v; try reflexivity; cbn in H.
  - rewrite !snapshot_list. f_equal.
    apply map_ext_in. intros x Hx.
    apply IH. rewrite forallb_forall in H. now apply H.
  - rewrite !snapshot_dict. f_equal.
    apply map_ext_in. intros [n x] Hx. cbn [fst snd]. f_equal.
    apply IH. rewrite forallb_forall in H. exact (H (n, x) Hx).
  - discriminate.
Qed.

Lemma ref_free_S (d : nat) :
  forall v, ref_free (S d) v = true -> ref_free d v = true.
Proof.
  induction d as [|d IH]; intros v H; [reflexivity|].
  destruct v; try reflexivity; cbn in H |- *.
  - rewrite forallb_forall in H |- *. intros x Hx. apply IH. now apply H.
  - rewrite forallb_forall in H |- *. intros x Hx. apply IH. now apply H.
  - discriminate.
Qed.

Lemma ref_free_le (d d' : nat) (v : value) :
  d' <= d -> ref_free d v = true -> ref_free d' v = true.
Proof.
  induction 1 as [|d Hle IH]; [tauto|].
  intros H. apply IH. now apply ref_free_S.
Qed.

Lemma fresh_components_ref_free :
  Forall (fun o =>
            forallb (fun kv => ref_free snapshot_depth (snd kv)) (obj_dict o)
            = true)
         fresh_components.
Proof.
  unfold fresh_components. cbn [repeat app].
  repeat (constructor; [reflexivity|]).
  constructor.
Qed.

Lemma fresh_components_length : length fresh_components = 45.
Proof. reflexivity. Qed.

(** ** A board in the store

    [l] is what the store holds from the board's own address on: the
    objects the constructor allocated, then whatever came later. *)
Section Board.

Variables (F : framework) (p l : store) (ff : string).

Hypothesis board_at :
  forall k o, board_objects (length p) ff !! k = Some o -> l !! k = Some o.

Ltac held := apply board_at; reflexivity.
Ltac reduce :=
  lazy -[framed deref object_at lookup Nat.add length for_each].

Lemma board_framed :
  object_at (framed p l) (VRef (length p + 0)) =
  Some (board_object (length p) ff).
Proof. apply object_at_framed. held. Qed.

Lemma component_framed (k : nat) (o : object) :
  fresh_components !! k = Some o ->
  object_at (framed p l) (VRef (length p + S k)) = Some o.
Proof. intros H. apply object_at_framed, board_at. exact H. Qed.

Lemma component_initial (k : nat) :
  1 <= k <= 45 ->
  exists o,
    object_at (framed p l) (VRef (length p + k)) = Some o /\
    obj_class o = MainboardComponent /\
    attr_of o "status" = Ok (VStr "operational") /\
    attr_of o "temperature" = Ok (VInt 0) /\
    attr_of o "power_draw" = Ok (VInt 0).
Proof.
  intros Hk. destruct k as [|k]; [lia|].
  destruct (lookup_lt_is_Some_2 fresh_components k) as [o Ho].
  { rewrite fresh_components_length. lia. }
  exists o. split; [now apply component_framed|].
  pose proof fresh_components_initial as Hfresh.
  rewrite Forall_forall in Hfresh.
  destruct (Hfresh o) as (? & ? & ? & ? & _); [|tauto].
  eapply list_elem_of_lookup_2. exact Ho.
Qed.

Lemma is_component_framed (k : nat) :
  1 <= k <= 45 -> is_component (framed p l) (VRef (length p + k)) = true.
Proof.
  intros Hk. destruct (component_initial k Hk) as (o & Ho & Hc & _).
  unfold is_component. now rewrite Ho, Hc.
Qed.

(** What the scan takes from the names the source defines on a board:
    the components of the singleton fields and flat lists, nothing from the
    two dictionaries, from the form factor and from the methods. *)
Lemma taken_own :
  map (taken F (framed p l) (board_object (length p) ff))
      (dict_keys (board_dict (length p) ff) ++ class_attrs Mainboard) =
  map Ok (board_taken (length p)).
Proof.
  unfold board_taken, board_dict.
  cbn [dict_keys map fst app class_attrs repeat].
  repeat (apply (f_equal2 cons);
          [unfold taken, read; reduce;
           repeat (erewrite lookup_framed by held; reduce);
           reflexivity|]).
  reflexivity.
Qed.

Lemma taken_own_Ok (n : string) :
  defines (board_object (length p) ff) n = true ->
  exists c, taken F (framed p l) (board_object (length p) ff) n = Ok c.
Proof.
  intros H. apply defines_In in H.
  change (In n (dict_keys (board_dict (length p) ff) ++ class_attrs Mainboard))
    in H.
  apply (in_map (taken F (framed p l) (board_object (length p) ff))) in H.
  rewrite taken_own in H. apply in_map_iff in H as (c & Hc & _). eauto.
Qed.

Lemma taken_own_components :
  flat_map (fun n =>
              or_nothing (taken F (framed p l) (board_object (length p) ff) n))
           (dict_keys (board_dict (length p) ff) ++ class_attrs Mainboard) =
  refs_at (length p) flat_held.
Proof.
  rewrite flat_map_concat_map, <- (map_map _ or_nothing), taken_own.
  rewrite map_map. cbn [or_nothing]. rewrite map_id. reflexivity.
Qed.






Lemma flat_held_range : Forall (fun k => 1 <= k <= 45) flat_held.
Proof. unfold flat_held. cbn. repeat (constructor; [lia|]). constructor. Qed.

Lemma grouped_offsets_range : Forall (fun k => 1 <= k <= 45) grouped_offsets.
Proof.
  unfold grouped_offsets. cbn. repeat (constructor; [lia|]). constructor.
Qed.

Lemma all_components (ks : list nat) :
  Forall (fun k => 1 <= k <= 45) ks ->
  Forall (fun c => is_component (framed p l) c = true)
         (refs_at (length p) ks).
Proof.
  intros H. apply Forall_refs_at.
  eapply Forall_impl; [exact H|].
  intros k Hk. now apply is_component_framed.
Qed.

Lemma flat_components_framed :
  flat_components (framed p l) (board_object (length p) ff) =
  refs_at (length p) flat_held.
Proof.
  unfold flat_components.
  change (flat_map _ (obj_dict (board_object (length p) ff)))
    with (refs_at (length p) flat_held).
  apply filter_all, all_components, flat_held_range.
Qed.

Lemma grouped_components_framed :
  grouped_components (framed p l) (board_object (length p) ff) =
  refs_at (length p) grouped_offsets.
Proof.
  unfold grouped_components.
  change (flat_map _ (obj_dict (board_object (length p) ff)))
    with (refs_at (length p) grouped_offsets).
  apply filter_all, all_components, grouped_offsets_range.
Qed.

Lemma owned_components_framed :
  owned_components (framed p l) (board_object (length p) ff) =
  refs_at (length p) (flat_held ++ grouped_offsets).
Proof.
  unfold owned_components.
  rewrite flat_components_framed, grouped_components_framed.
  unfold refs_at. now rewrite map_app.
Qed.

Ltac read_field :=
  unfold field; erewrite object_at_framed by held; reflexivity.

Lemma topology_framed :
  Forall (holds_row (framed p l) (board_object (length p) ff)) topology.
Proof.
  unfold topology.
  repeat (constructor;
          [eexists; split; [reflexivity|]; split; [reflexivity|];
           reduce;
           repeat (constructor;
                   [split; [apply is_component_framed; lia|read_field]|]);
           constructor|]).
  constructor.
Qed.

Lemma getattr_component (k : nat) (n : string) (r : value) :
  (forall o, fresh_components !! k = Some o -> attr_of o n = Ok r) ->
  k < 45 ->
  getattr F (VRef (length p + S k)) n (framed p l) = (Ok r, framed p l).
Proof.
  intros H Hk.
  destruct (lookup_lt_is_Some_2 fresh_components k) as [o Ho].
  { now rewrite fresh_components_length. }
  erewrite getattr_framed by (apply board_at; exact Ho).
  now rewrite (read_own F _ _ _ r (H o Ho)).
Qed.

Lemma snapshot_component (d k : nat) :
  k < 45 -> d <= snapshot_depth ->
  snapshot d (framed p l) (VRef (length p + S k)) =
  snapshot d (board_objects 0 ff) (VRef (S k)).
Proof.
  intros Hk Hd.
  destruct (lookup_lt_is_Some_2 fresh_components k) as [o Ho].
  { now rewrite fresh_components_length. }
  destruct d as [|d]; [reflexivity|].
  rewrite !snapshot_ref.
  rewrite (component_framed k o Ho).
  change (object_at (board_objects 0 ff) (VRef (S k)))
    with (fresh_components !! k).
  rewrite Ho. f_equal.
  apply map_ext_in. intros [n v] Hin. cbn [fst snd]. f_equal.
  apply snapshot_ref_free.
  apply (ref_free_le snapshot_depth); [lia|].
  pose proof fresh_components_ref_free as Hfresh.
  rewrite Forall_forall in Hfresh.
  specialize (Hfresh o (list_elem_of_lookup_2 _ _ _ Ho)).
  rewrite forallb_forall in Hfresh. exact (Hfresh (n, v) Hin).
Qed.

Lemma snapshot_refs (d first n : nat) :
  1 <= first -> first + n <= 46 -> d <= snapshot_depth ->
  map (snapshot d (framed p l)) (refs (length p) first n) =
  map (snapshot d (board_objects 0 ff)) (refs 0 first n).
Proof.
  intros H1 H2 Hd. unfold refs, refs_at. rewrite !map_map.
  apply map_ext_in. intros k Hk. apply in_seq in Hk.
  destruct k as [|k]; [lia|].
  apply snapshot_component; lia.
Qed.

Lemma snapshot_framed :
  snapshot snapshot_depth (framed p l) (VRef (length p + 0)) =
  snapshot snapshot_depth (board_objects 0 ff) (VRef 0).
Proof.
  unfold snapshot_depth.
  rewrite (snapshot_ref _ (framed p l)), board_framed.
  cbn [obj_class obj_dict board_object board_dict map fst snd].
  rewrite !snapshot_list, !snapshot_dict.
  cbn [map fst snd]. rewrite !snapshot_list.
  rewrite !snapshot_refs by (unfold snapshot_depth; lia).
  rewrite !snapshot_component by (unfold snapshot_depth; lia).
  reflexivity.
Qed.

Lemma board_names_NoDup (base : addr) :
  NoDup (dict_keys (board_dict base ff) ++ class_attrs Mainboard).
Proof.
  cbn [board_dict dict_keys map fst class_attrs app].
  compute_done.
Qed.

(** What [get_all_components] does on a board, whatever the base classes
    add.  The names the source defines contribute the components of the
    singleton fields and flat lists, once each, and cannot fail;
    everything else, an exception included, comes from a name of the base
    classes. *)
Lemma scan_framed_Ok (cs : list value) :
  get_all_components F (VRef (length p + 0)) (framed p l) =
    (Ok cs, framed p l) ->
  Permutation cs
    (refs_at (length p) flat_held ++
     inherited_components F (framed p l) (board_object (length p) ff)).
Proof.
  rewrite (get_all_components_run F _ _ (board_object (length p) ff))
    by (apply lookup_framed; held).
  intros H. apply (f_equal fst) in H. cbn [fst] in H.
  apply scan_parts in H; [|apply board_names_NoDup].
  change (dict_keys (obj_dict (board_object (length p) ff)) ++
          class_attrs (obj_class (board_object (length p) ff)))
    with (dict_keys (board_dict (length p) ff) ++ class_attrs Mainboard) in H.
  now rewrite taken_own_components in H.
Qed.

Lemma scan_framed_Raise (e : exn) :
  get_all_components F (VRef (length p + 0)) (framed p l) =
    (Raise e, framed p l) ->
  exists n,
    In n (inherited_scanned F (board_object (length p) ff)) /\
    taken F (framed p l) (board_object (length p) ff) n = Raise e.
Proof.
  rewrite (get_all_components_run F _ _ (board_object (length p) ff))
    by (apply lookup_framed; held).
  intros H. apply (f_equal fst) in H. cbn [fst] in H.
  apply collect_Raise in H as (n & Hn & Hr).
  apply (proj1 (scanned_names_In F _ n)) in Hn as [Hn|Hn].
  - destruct (taken_own_Ok n Hn) as [c Hc]. rewrite Hc in Hr. discriminate.
  - exists n. split; assumption.
Qed.

Lemma scan_framed_returns :
  (forall n, In n (inherited_scanned F (board_object (length p) ff)) ->
             exists c,
               taken F (framed p l) (board_object (length p) ff) n = Ok c) ->
  exists cs,
    get_all_components F (VRef (length p + 0)) (framed p l) =
    (Ok cs, framed p l).
Proof.
  intros Hinh.
  rewrite (get_all_components_run F _ _ (board_object (length p) ff))
    by (apply lookup_framed; held).
  destruct (collect_returns F (framed p l) (board_object (length p) ff)
              (scanned_names F (board_object (length p) ff)))
    with (acc := @nil value) as [cs Hcs].
  { intros n Hn. apply (proj1 (scanned_names_In F _ n)) in Hn as [Hn|Hn].
    - apply taken_own_Ok. exact Hn.
    - apply Hinh. exact Hn. }
  exists cs. rewrite Hcs. reflexivity.
Qed.

Ltac kind_at j :=
  exists j; split;
  [apply (incl_by_eval [j]); [reflexivity|left; reflexivity]|read_field].

(** Each of the thirteen kinds is the kind of a component held in a
    singleton field or flat list. *)
Lemma flat_kind_held (k : string) :
  In k flat_kinds ->
  exists j,
    In j flat_held /\
    field (framed p l) (VRef (length p + j)) "component_type" = Some (VStr k).
Proof.
  intros H. cbn [flat_kinds In] in H.
  repeat (destruct H as [<-|H];
          [first [kind_at 37|kind_at 36|kind_at 2|kind_at 1|kind_at 35
                 |kind_at 20|kind_at 7|kind_at 3|kind_at 38|kind_at 28
                 |kind_at 11|kind_at 39|kind_at 19]|]).
  destruct H.
Qed.

End Board.

(** ** Computations that never write *)

Create HintDb read_only.

Lemma read_only_ret {A : Type} (a : A) : read_only (ret a).
Proof. intros s. reflexivity. Qed.

Lemma read_only_raise {A : Type} (e : exn) : read_only (@raise A e).
Proof. intros s. reflexivity. Qed.

Lemma read_only_deref (a : addr) : read_only (deref a).
Proof. intros s. unfold deref. now destruct (s !! a). Qed.

Lemma read_only_bind {A B : Type} (m : M A) (k : A -> M B) :
  read_only m -> (forall a, read_only (k a)) -> read_only (bind m k).
Proof.
  intros Hm Hk s. unfold bind.
  specialize (Hm s). destruct (m s) as [[a|e] s']; cbn in Hm; subst s'.
  - apply Hk.
  - reflexivity.
Qed.

#[local] Hint Resolve read_only_ret read_only_raise read_only_deref
  : read_only.

Lemma read_only_getattr (F : framework) (obj : value) (n : string) :
  read_only (getattr F obj n).
Proof.
  destruct obj; cbn [getattr]; auto with read_only.
  apply read_only_bind; auto with read_only.
  intros o s. reflexivity.
Qed.

Lemma read_only_isinstance (v : value) (c : class) :
  read_only (isinstance v c).
Proof.
  destruct v; cbn [isinstance]; auto with read_only.
  apply read_only_bind; auto with read_only.
Qed.

Lemma read_only_dir (F : framework) (obj : value) : read_only (dir F obj).
Proof.
  destruct obj; cbn [dir]; auto with read_only.
  apply read_only_bind; auto with read_only.
Qed.

Lemma read_only_for_each {A B : Type} (xs : list A) (body : B -> A -> M B) :
  (forall acc x, read_only (body acc x)) ->
  forall acc, read_only (for_each xs body acc).
Proof.
  intros Hbody. induction xs as [|x xs IH]; intros acc; cbn [for_each].
  - apply read_only_ret.
  - apply read_only_bind; [apply Hbody|exact IH].
Qed.

#[local] Hint Resolve read_only_getattr read_only_isinstance read_only_dir
  : read_only.

Lemma read_only_get_all_components (F : framework) (self : value) :
  read_only (get_all_components F self).
Proof.
  unfold get_all_components.
  apply read_only_bind; [auto with read_only|]. intros names.
  apply read_only_for_each. intros acc name.
  apply read_only_bind; [auto with read_only|]. intros attr.
  apply read_only_bind; [auto with read_only|]. intros [|].
  - apply read_only_ret.
  - destruct attr as [| | | |[|first rest]| | |]; try apply read_only_ret.
    apply read_only_bind; [auto with read_only|].
    intros [|]; apply read_only_ret.
Qed.

Lemma read_only_verify_all_components (F : framework) (self : value) :
  read_only (verify_all_components F self).
Proof.
  unfold verify_all_components.
  apply read_only_bind; [apply read_only_get_all_components|]. intros comps.
  apply read_only_bind; [|intros d; apply read_only_ret].
  apply read_only_for_each. intros d c.
  apply read_only_bind; [auto with read_only|]. intros k.
  apply read_only_bind; [auto with read_only|]. intros v.
  destruct k; auto with read_only.
Qed.

(** ** Dictionaries built by assignment *)

Section Dict.

Context {V : Type}.
Implicit Types (d : list (string * V)) (k : string) (v : V).

Lemma dict_keys_set k v d k' :
  In k' (dict_keys (dict_set k v d)) <-> k' = k \/ In k' (dict_keys d).
Proof.
  induction d as [|[k0 v0] d IH]; cbn.
  - intuition.
  - destruct (String.eqb_spec k k0) as [->|Hne]; cbn.
    + intuition.
    + rewrite IH. intuition.
Qed.

Lemma dict_set_NoDup k v d :
  NoDup (dict_keys d) -> NoDup (dict_keys (dict_set k v d)).
Proof.
  induction d as [|[k0 v0] d IH]; cbn; intros H.
  - repeat constructor. intros Hin. inversion Hin.
  - inversion H as [|? ? Hnotin Hnd]; subst.
    destruct (String.eqb_spec k k0) as [->|Hne]; cbn.
    + now constructor.
    + constructor; [|now apply IH].
      rewrite list_elem_of_In in *.
      fold (dict_keys (dict_set k v d)). rewrite dict_keys_set.
      intros [E|Hin]; [congruence|contradiction].
Qed.

Lemma dict_get_set_eq k v d : dict_get k (dict_set k v d) = Some v.
Proof.
  induction d as [|[k0 v0] d IH]; cbn.
  - now rewrite String.eqb_refl.
  - destruct (String.eqb_spec k k0) as [->|Hne]; cbn.
    + now rewrite String.eqb_refl.
    + apply String.eqb_neq in Hne. now rewrite Hne.
Qed.

Lemma dict_get_set_ne k k' v d :
  k' <> k -> dict_get k' (dict_set k v d) = dict_get k' d.
Proof.
  intros Hne. induction d as [|[k0 v0] d IH]; cbn.
  - apply String.eqb_neq in Hne. now rewrite Hne.
  - destruct (String.eqb_spec k k0) as [->|Hne0]; cbn.
    + apply String.eqb_neq in Hne. now rewrite Hne.
    + now rewrite IH.
Qed.

End Dict.

Section DictOf.

Implicit Types (kvs acc : list (string * value)) (k : string).

Lemma assign_keys kvs : forall acc k,
  In k (dict_keys (fold_left assign kvs acc)) <->
  In k (dict_keys acc) \/ In k (map fst kvs).
Proof.
  induction kvs as [|[k0 v0] kvs IH]; intros acc k; cbn [fold_left map].
  - cbn. tauto.
  - rewrite IH. unfold assign. cbn [fst snd].
    rewrite dict_keys_set. cbn. intuition.
Qed.

Lemma assign_NoDup kvs : forall acc,
  NoDup (dict_keys acc) -> NoDup (dict_keys (fold_left assign kvs acc)).
Proof.
  induction kvs as [|[k0 v0] kvs IH]; intros acc H; cbn [fold_left].
  - exact H.
  - apply IH. now apply dict_set_NoDup.
Qed.

Lemma assign_other kvs : forall acc k,
  ~ In k (map fst kvs) ->
  dict_get k (fold_left assign kvs acc) = dict_get k acc.
Proof.
  induction kvs as [|[k0 v0] kvs IH]; intros acc k H; cbn [fold_left].
  - reflexivity.
  - cbn in H. rewrite IH by tauto.
    apply dict_get_set_ne. intros ->. apply H. now left.
Qed.

Lemma dict_of_keys kvs k :
  In k (dict_keys (dict_of kvs)) <-> In k (map fst kvs).
Proof. unfold dict_of. rewrite assign_keys. cbn. tauto. Qed.

Lemma dict_of_NoDup kvs : NoDup (dict_keys (dict_of kvs)).
Proof. apply assign_NoDup. constructor. Qed.

(** The last assignment to a key is the one that stays. *)
Lemma dict_of_last (pre post : list (string * value)) k (v : value) :
  ~ In k (map fst post) ->
  dict_get k (dict_of (pre ++ (k, v) :: post)) = Some v.
Proof.
  intros H. unfold dict_of.
  rewrite fold_left_app. cbn [fold_left].
  rewrite assign_other by exact H.
  apply dict_get_set_eq.
Qed.

End DictOf.

(** ** [verify_all_components] on any store *)

Lemma entry_of_Some (s : store) (c : value) (k : string) (v : value) :
  entry_of s c = Some (k, v) <->
  field s c "component_type" = Some (VStr k) /\ field s c "status" = Some v.
Proof.
  unfold entry_of, kind_of.
  destruct (field s c "component_type") as [[| | |k'| | | |]|];
    try (split; [discriminate|intros [? _]; discriminate]).
  destruct (field s c "status") as [v'|].
  - split; [intros [= -> ->]; auto|intros [[= ->] [= ->]]; auto].
  - split; [discriminate|intros [_ ?]; discriminate].
Qed.

Lemma for_each_app {A B : Type} (xs ys : list A) (body : B -> A -> M B) :
  forall (acc : B) (s : store),
    for_each (xs ++ ys) body acc s =
    match for_each xs body acc s with
    | (Ok acc', s') => for_each ys body acc' s'
    | (Raise e, s') => (Raise e, s')
    end.
Proof.
  induction xs as [|x xs IH]; intros acc s; [reflexivity|].
  rewrite <- app_comm_cons, !for_each_cons.
  destruct (body acc x s) as [[acc'|e] s']; [apply IH|reflexivity].
Qed.

(** The loop of the dictionary comprehension, on readable components. *)
Lemma verify_loop (F : framework) (s : store) (cs : list value) :
  forall kvs d,
    entries s cs = Some kvs ->
    for_each cs
      (fun d component =>
         k <- getattr F component "component_type" ;;
         v <- getattr F component "status" ;;
         match k with
         | VStr kind => ret (dict_set kind v d)
         | _ => raise (TypeError "unsupported key type")
         end)
      d s =
    (Ok (fold_left assign kvs d), s).
Proof.
  induction cs as [|c cs IH]; intros kvs d H; cbn [entries] in H.
  - injection H as <-. reflexivity.
  - destruct (entry_of s c) as [[k v]|] eqn:Hc; [|discriminate].
    destruct (entries s cs) as [es|] eqn:Hes; [|discriminate].
    injection H as <-.
    apply entry_of_Some in Hc as [Hk Hv].
    rewrite for_each_cons. cbv beta. unfold bind at 1.
    rewrite (getattr_field _ _ _ _ _ Hk). unfold bind at 1.
    rewrite (getattr_field _ _ _ _ _ Hv). unfold ret at 1.
    exact (IH es (dict_set k v d) eq_refl).
Qed.

Lemma entries_length (s : store) (cs : list value) :
  forall kvs, entries s cs = Some kvs -> length kvs = length cs.
Proof.
  induction cs as [|c cs IH]; intros kvs H; cbn [entries] in H.
  - now injection H as <-.
  - destruct (entry_of s c); [|discriminate].
    destruct (entries s cs) as [es|] eqn:Hes; [|discriminate].
    injection H as <-. cbn. now rewrite (IH es).
Qed.

Lemma dict_set_length {V : Type} (k : string) (v : V) (d : list (string * V)) :
  length (dict_set k v d) <= S (length d).
Proof.
  induction d as [|[k0 v0] d IH]; cbn; [lia|].
  destruct (String.eqb k k0); cbn; lia.
Qed.

Lemma assign_length (kvs : list (string * value)) :
  forall d, length (fold_left assign kvs d) <= length d + length kvs.
Proof.
  induction kvs as [|e kvs IH]; intros d; cbn [fold_left length]; [lia|].
  specialize (IH (assign d e)).
  pose proof (dict_set_length (fst e) (snd e) d). unfold assign in *. lia.
Qed.

Lemma verify_all_components_run
    (F : framework) (self : value) (s : store) (cs : list value)
    (kvs : list (string * value)) :
  get_all_components F self s = (Ok cs, s) ->
  entries s cs = Some kvs ->
  verify_all_components F self s = (Ok (VDict (dict_of kvs)), s).
Proof.
  intros Hcs Hkvs.
  unfold verify_all_components. unfold bind at 1. rewrite Hcs.
  unfold bind at 1. now rewrite (verify_loop _ _ _ _ _ Hkvs).
Qed.

Lemma entries_In (s : store) (cs : list value) (c : value) :
  forall kvs,
    entries s cs = Some kvs -> In c cs ->
    exists e, entry_of s c = Some e /\ In e kvs.
Proof.
  induction cs as [|x cs IH]; intros kvs H Hc; [destruct Hc|].
  cbn [entries] in H.
  destruct (entry_of s x) as [e|] eqn:Hx; [|discriminate].
  destruct (entries s cs) as [es|] eqn:Hes; [|discriminate].
  injection H as <-. destruct Hc as [<-|Hc].
  - exists e. split; [exact Hx|now left].
  - destruct (IH es eq_refl Hc) as (e' & He' & Hin).
    exists e'. split; [exact He'|now right].
Qed.


(** ** Constructed registries *)

Lemma constructed_inv (s0 : store) (ff : string) (mb : value) (s : store) :
  Mainboard_new ff s0 = (Ok mb, s) ->
  mb = VRef (length s0 + 0) /\ s = framed s0 (board_objects (length s0) ff).
Proof.
  rewrite Mainboard_new_store. intros [= <- <-].
  split; [f_equal; lia|reflexivity].
Qed.

Lemma held_self (base : addr) (ff : string) :
  forall k o,
    board_objects base ff !! k = Some o -> board_objects base ff !! k = Some o.
Proof. auto. Qed.

Lemma held_before (base : addr) (ff : string) (q : store) :
  forall k o,
    board_objects base ff !! k = Some o ->
    (board_objects base ff ++ q) !! k = Some o.
Proof. intros k o H. now apply lookup_app_l_Some. Qed.


Lemma owned_offsets_NoDup : NoDup (flat_held ++ grouped_offsets).
Proof. compute_done. Qed.

Lemma flat_kinds_NoDup : NoDup flat_kinds.
Proof. compute_done. Qed.

Lemma refs_at_inj (base : addr) (ks : list nat) (k : nat) :
  In (VRef (base + k)) (refs_at base ks) -> In k ks.
Proof.
  intros H. apply in_refs_at in H as (j & E & Hj).
  injection E as E. now replace k with j by lia.
Qed.

Lemma no_inherited_scanned (F : framework) (o : object) :
  inherited_names F (obj_class o) = [] -> inherited_scanned F o = [].
Proof.
  intros H. destruct (inherited_scanned F o) as [|n k] eqn:E; [reflexivity|].
  assert (In n (inherited_scanned F o)) as Hn
    by (rewrite E; left; reflexivity).
  apply inherited_scanned_In in Hn as [Hn _]. rewrite H in Hn. destruct Hn.
Qed.

(** [get_all_components] on a constructed registry, whatever the base
    classes add. *)
Lemma constructed_scan (F : framework) s0 ff mb s :
  Mainboard_new ff s0 = (Ok mb, s) ->
  object_at s mb = Some (board_object (length s0) ff) /\
  flat_components s (board_object (length s0) ff) =
    refs_at (length s0) flat_held /\
  grouped_components s (board_object (length s0) ff) =
    refs_at (length s0) grouped_offsets /\
  (forall cs,
      get_all_components F mb s = (Ok cs, s) ->
      Permutation cs
        (refs_at (length s0) flat_held ++
         inherited_components F s (board_object (length s0) ff))) /\
  (forall e,
      get_all_components F mb s = (Raise e, s) ->
      exists n, In n (inherited_scanned F (board_object (length s0) ff)) /\
                taken F s (board_object (length s0) ff) n = Raise e) /\
  ((forall n, In n (inherited_scanned F (board_object (length s0) ff)) ->
              exists c, taken F s (board_object (length s0) ff) n = Ok c) ->
   exists cs, get_all_components F mb s = (Ok cs, s)).
Proof.
  intros H. apply constructed_inv in H as [-> ->].
  split; [apply board_framed with (ff := ff), held_self|].
  split; [apply flat_components_framed with (ff := ff), held_self|].
  split; [apply grouped_components_framed with (ff := ff), held_self|].
  split; [intros cs; apply scan_framed_Ok, held_self|].
  split; [intros e; apply scan_framed_Raise, held_self|].
  apply scan_framed_returns, held_self.
Qed.

Lemma flat_grouped_disjoint (base : addr) (c : value) :
  In c (refs_at base flat_held) -> ~ In c (refs_at base grouped_offsets).
Proof.
  intros Hc Hc'. apply in_refs_at in Hc as (k & -> & Hk).
  apply refs_at_inj in Hc'.
  revert Hc'. apply (disjoint_by_eval flat_held grouped_offsets); auto.
Qed.

(** * The claims *)

(** C1 (fails on the code).  On every constructed registry, and whatever
    the base classes add to it, the loop of [get_all_components] takes
    nothing from the named groups [rgb_headers] and [pcie_slots].  What it
    returns is, up to the order, the 35 components of the singleton fields
    and flat lists, taken from the attributes that hold them, and whatever
    the attributes of the base classes contribute.  So a component of a
    named group is returned only if an inherited attribute supplies it; a
    component of a field or flat list that an inherited attribute supplies
    as well is returned twice; an exception can only come from an inherited
    attribute; and when the base classes add no attribute, the ten
    components of the named groups are missing. *)
Theorem get_all_components_skips_named_groups
    (F : framework) (s0 : store) (ff : string) (mb : value) (s : store) :
  Mainboard_new ff s0 = (Ok mb, s) ->
  exists o,
    object_at s mb = Some o /\
    length (flat_components s o) = 35 /\
    length (grouped_components s o) = 10 /\
    taken F s o "rgb_headers" = Ok [] /\
    taken F s o "pcie_slots" = Ok [] /\
    (forall cs,
        get_all_components F mb s = (Ok cs, s) ->
        Permutation cs (flat_components s o ++ inherited_components F s o) /\
        (forall c, In c (grouped_components s o) -> In c cs ->
                   In c (inherited_components F s o)) /\
        (forall c, In c (flat_components s o) ->
                   In c (inherited_components F s o) -> ~ NoDup cs)) /\
    (forall e,
        get_all_components F mb s = (Raise e, s) ->
        exists n, In n (inherited_scanned F o) /\ taken F s o n = Raise e) /\
    ((forall n, In n (inherited_scanned F o) ->
                exists c, taken F s o n = Ok c) ->
     exists cs, get_all_components F mb s = (Ok cs, s)) /\
    (inherited_names F Mainboard = [] ->
     exists cs,
       get_all_components F mb s = (Ok cs, s) /\
       Permutation cs (flat_components s o) /\
       forall c, In c (grouped_components s o) -> ~ In c cs).
Proof.
  intros H.
  destruct (constructed_scan F _ _ _ _ H)
    as (Ho & Hflat & Hgrouped & Hok & Hraise & Hret).
  exists (board_object (length s0) ff).
  rewrite Hflat, Hgrouped, !length_refs_at.
  split; [exact Ho|]. split; [reflexivity|]. split; [reflexivity|].
  split; [reflexivity|]. split; [reflexivity|].
  split; [|split; [exact Hraise|split; [exact Hret|]]].
  - intros cs Hcs. specialize (Hok cs Hcs).
    split; [exact Hok|]. split.
    + intros c Hg Hc.
      apply (Permutation_in _ Hok), in_app_iff in Hc as [Hc|Hc]; [|exact Hc].
      apply flat_grouped_disjoint in Hc. contradiction.
    + intros c Hf Hi Hnd. rewrite Hok in Hnd.
      apply NoDup_app in Hnd as (_ & Hdisj & _).
      apply (Hdisj c); apply list_elem_of_In; assumption.
  - intros Hnone.
    assert (inherited_scanned F (board_object (length s0) ff) = []) as E
      by (apply no_inherited_scanned; exact Hnone).
    destruct Hret as [cs Hcs]; [rewrite E; intros n []|].
    exists cs. split; [exact Hcs|].
    specialize (Hok cs Hcs).
    unfold inherited_components in Hok. rewrite E in Hok.
    cbn [flat_map] in Hok. rewrite app_nil_r in Hok.
    split; [exact Hok|].
    intros c Hg Hc. apply (Permutation_in _ Hok) in Hc.
    apply flat_grouped_disjoint in Hc. contradiction.
Qed.

Lemma get_all_components_skips_named_groups_witness :
  Mainboard_new "ATX" [] = (Ok (VRef 0), board_objects 0 "ATX") /\
  exists o,
    object_at (board_objects 0 "ATX") (VRef 0) = Some o /\
    length (flat_components (board_objects 0 "ATX") o) = 35 /\
    length (grouped_components (board_objects 0 "ATX") o) = 10 /\
    taken sub_layers (board_objects 0 "ATX") o "rgb_headers" = Ok [] /\
    taken sub_layers (board_objects 0 "ATX") o "pcie_slots" = Ok [] /\
    (forall cs,
        get_all_components sub_layers (VRef 0) (board_objects 0 "ATX") =
          (Ok cs, board_objects 0 "ATX") ->
        Permutation cs
          (flat_components (board_objects 0 "ATX") o ++
           inherited_components sub_layers (board_objects 0 "ATX") o) /\
        (forall c, In c (grouped_components (board_objects 0 "ATX") o) ->
                   In c cs ->
                   In c (inherited_components sub_layers
                           (board_objects 0 "ATX") o)) /\
        (forall c, In c (flat_components (board_objects 0 "ATX") o) ->
                   In c (inherited_components sub_layers
                           (board_objects 0 "ATX") o) ->
                   ~ NoDup cs)) /\
    (forall e,
        get_all_components sub_layers (VRef 0) (board_objects 0 "ATX") =
          (Raise e, board_objects 0 "ATX") ->
        exists n, In n (inherited_scanned sub_layers o) /\
                  taken sub_layers (board_objects 0 "ATX") o n = Raise e) /\
    ((forall n, In n (inherited_scanned sub_layers o) ->
                exists c, taken sub_layers (board_objects 0 "ATX") o n = Ok c) ->
     exists cs, get_all_components sub_layers (VRef 0) (board_objects 0 "ATX") =
                (Ok cs, board_objects 0 "ATX")) /\
    (inherited_names sub_layers Mainboard = [] ->
     exists cs,
       get_all_components sub_layers (VRef 0) (board_objects 0 "ATX") =
         (Ok cs, board_objects 0 "ATX") /\
       Permutation cs (flat_components (board_objects 0 "ATX") o) /\
       forall c, In c (grouped_components (board_objects 0 "ATX") o) ->
                 ~ In c cs).
Proof.
  split; [reflexivity|].
  apply (get_all_components_skips_named_groups sub_layers [] "ATX").
  reflexivity.
Defined.




(** C3 (as stated, refuted).  The eighteen groups of the claim add up to 45
    components, and the registry built with form factor ATX owns 45, not
    41. *)
Lemma construction_total_not_41 :
  total_count topology <> 41 /\
  exists mb s o,
    Mainboard_new "ATX" [] = (Ok mb, s) /\
    object_at s mb = Some o /\
    Forall (holds_row s o) topology /\
    length (owned_components s o) <> 41.
Proof.
  split; [cbn; lia|].
  exists (VRef 0), (board_objects 0 "ATX"), (board_object 0 "ATX").
  split; [reflexivity|]. split; [reflexivity|]. split.
  - exact (topology_framed [] _ "ATX" (held_self 0 "ATX")).
  - cbn. lia.
Qed.

(** C3 (amended).  For every form factor and every store, construction
    succeeds and the board holds exactly 1 CPU socket, 1 chipset, 4 memory
    slots, 4 M.2 slots, 8 SATA ports, 1 VRM, 8 fan headers, 2 pump headers,
    3 addressable and 2 traditional RGB headers, 1 debug system, 1 BIOS,
    1 audio system, 1 network block, 2 Thunderbolt ports, 2 PCIe x16 slots,
    1 PCIe x4 slot and 2 PCIe x1 slots: 45 distinct components in all. *)
Theorem construction_topology (s0 : store) (ff : string) :
  exists mb s o,
    Mainboard_new ff s0 = (Ok mb, s) /\
    object_at s mb = Some o /\
    obj_class o = Mainboard /\
    Forall (holds_row s o) topology /\
    total_count topology = 45 /\
    NoDup (owned_components s o) /\
    length (owned_components s o) = 45 /\
    length s = length s0 + 46.
Proof.
  destruct (constructed_inv s0 ff _ _ (Mainboard_new_store ff s0)) as [E1 E2].
  exists (VRef (length s0)), (s0 ++ board_objects (length s0) ff),
         (board_object (length s0) ff).
  split; [apply Mainboard_new_store|].
  rewrite E1, E2.
  rewrite (owned_components_framed _ _ ff (held_self _ _)).
  split; [apply board_framed with (ff := ff), held_self|].
  split; [reflexivity|].
  split; [apply topology_framed, held_self|].
  split; [reflexivity|].
  split; [apply NoDup_refs_at, owned_offsets_NoDup|].
  split; [now rewrite length_refs_at|].
  unfold framed. rewrite length_app. reflexivity.
Qed.

(** C4 (as stated, refuted).  On the registry built with form factor ATX
    the mapping does not have 12 keys: it has 13 when the base classes add
    no attribute, and 18 when they add a list of the components the
    attributes hold. *)
Lemma verify_all_components_keys_not_12 :
  exists mb s,
    Mainboard_new "ATX" [] = (Ok mb, s) /\
    (exists d, verify_all_components bare mb s = (Ok (VDict d), s) /\
               length (dict_keys d) = 13 /\ length (dict_keys d) <> 12) /\
    (exists d, verify_all_components sub_layers mb s = (Ok (VDict d), s) /\
               length (dict_keys d) = 18 /\ length (dict_keys d) <> 12).
Proof.
  exists (VRef 0), (board_objects 0 "ATX").
  split; [reflexivity|]. split.
  - eexists. split; [vm_compute; reflexivity|].
    split; [reflexivity|cbn; lia].
  - eexists. split; [vm_compute; reflexivity|].
    split; [reflexivity|cbn; lia].
Qed.

(** C4 (amended).  In every store, so also when statuses differ: when
    [get_all_components] returns [cs] and every member of [cs] has a kind
    and a status, [verify_all_components] returns the mapping obtained by
    assigning, in the order of [cs], each member's status to its kind.  A
    later member overwrites an earlier one of the same kind, and the keys
    are exactly the distinct kinds of the members.  In the store that
    construction leaves, the 13 kinds of the singleton fields and flat
    lists are among the keys, whatever the base classes add: the mapping
    has at least 13 keys. *)
Theorem verify_all_components_keys
    (F : framework) (self : value) (s : store) (cs : list value)
    (kvs : list (string * value)) :
  get_all_components F self s = (Ok cs, s) ->
  entries s cs = Some kvs ->
  exists d,
    verify_all_components F self s = (Ok (VDict d), s) /\
    d = dict_of kvs /\
    NoDup (dict_keys d) /\
    (forall k, In k (dict_keys d) <-> In k (map fst kvs)) /\
    (forall pre k v post,
        kvs = pre ++ (k, v) :: post -> ~ In k (map fst post) ->
        dict_get k d = Some v) /\
    (forall s0 ff,
        Mainboard_new ff s0 = (Ok self, s) ->
        incl flat_kinds (dict_keys d) /\ 13 <= length (dict_keys d)) /\
    NoDup flat_kinds /\ length flat_kinds = 13.
Proof.
  intros Hcs Hkvs. exists (dict_of kvs).
  split; [now apply verify_all_components_run with cs|].
  split; [reflexivity|].
  split; [apply dict_of_NoDup|].
  split; [apply dict_of_keys|].
  split; [intros pre k v post -> Hpost; now apply dict_of_last|].
  split; [|split; [apply flat_kinds_NoDup|reflexivity]].
  intros s0 ff H.
  assert (incl flat_kinds (dict_keys (dict_of kvs))) as Hincl.
  { destruct (constructed_scan F _ _ _ _ H) as (_ & _ & _ & Hok & _).
    specialize (Hok cs Hcs).
    apply constructed_inv in H as [-> ->].
    intros k Hk. apply dict_of_keys.
    destruct (flat_kind_held s0 _ ff (held_self _ _) k Hk) as (j & Hj & Hf).
    assert (In (VRef (length s0 + j)) cs) as Hc.
    { apply (Permutation_in _ (Permutation_sym Hok)), in_app_iff. left.
      apply in_refs_at. exists j. split; [reflexivity|exact Hj]. }
    destruct (entries_In _ _ _ _ Hkvs Hc) as ([k' v] & He & Hin).
    apply entry_of_Some in He as [Hk' _].
    rewrite Hf in Hk'. injection Hk' as <-.
    apply in_map_iff. exists (k, v). split; [reflexivity|exact Hin]. }
  split; [exact Hincl|].
  change 13 with (length flat_kinds).
  apply submseteq_length, NoDup_submseteq; [apply flat_kinds_NoDup|].
  intros k Hk. apply list_elem_of_In, Hincl. now apply list_elem_of_In.
Qed.

Lemma verify_all_components_keys_witness :
  let s := <[6 := set_field "status" (VStr "failed")
                    (component_object "RAM Slot" ram_slot_specs)]>
             (board_objects 0 "ATX") in
  let kvs :=
    map (fun k => (k, VStr "operational"))
      (["Audio"; "BIOS"; "Chipset"; "CPU Socket"; "Debug System"]
       ++ repeat "Fan Header" 8 ++ repeat "M.2 Slot" 4 ++ repeat "RAM Slot" 3)
    ++ [("RAM Slot", VStr "failed")]
    ++ map (fun k => (k, VStr "operational"))
         (["Network"] ++ repeat "Pump Header" 2 ++ repeat "SATA Port" 8
          ++ repeat "Thunderbolt 4" 2 ++ ["VRM"]) in
  get_all_components bare (VRef 0) s = (Ok (refs_at 0 flat_offsets), s) /\
  entries s (refs_at 0 flat_offsets) = Some kvs /\
  exists d,
    verify_all_components bare (VRef 0) s = (Ok (VDict d), s) /\
    d = dict_of kvs /\
    NoDup (dict_keys d) /\
    (forall k, In k (dict_keys d) <-> In k (map fst kvs)) /\
    (forall pre k v post,
        kvs = pre ++ (k, v) :: post -> ~ In k (map fst post) ->
        dict_get k d = Some v) /\
    (forall s0 ff,
        Mainboard_new ff s0 = (Ok (VRef 0), s) ->
        incl flat_kinds (dict_keys d) /\ 13 <= length (dict_keys d)) /\
    NoDup flat_kinds /\ length flat_kinds = 13.
Proof.
  cbv zeta.
  split; [vm_compute; reflexivity|]. split; [vm_compute; reflexivity|].
  apply (verify_all_components_keys bare (VRef 0) _ (refs_at 0 flat_offsets));
    vm_compute; reflexivity.
Defined.



(** C6.  For every form factor and every store, construction succeeds and
    each of the 45 components the board owns reads status ['operational'],
    temperature 0 and power draw 0 in the store construction leaves. *)
Theorem components_initial_state
    (F : framework) (s0 : store) (ff : string) :
  exists mb s o,
    Mainboard_new ff s0 = (Ok mb, s) /\
    object_at s mb = Some o /\
    length (owned_components s o) = 45 /\
    Forall (fun c =>
              getattr F c "status" s = (Ok (VStr "operational"), s) /\
              getattr F c "temperature" s = (Ok (VInt 0), s) /\
              getattr F c "power_draw" s = (Ok (VInt 0), s))
           (owned_components s o).
Proof.
  destruct (constructed_inv s0 ff _ _ (Mainboard_new_store ff s0)) as [E1 E2].
  exists (VRef (length s0)), (s0 ++ board_objects (length s0) ff),
         (board_object (length s0) ff).
  split; [apply Mainboard_new_store|].
  rewrite E1, E2.
  rewrite (owned_components_framed _ _ ff (held_self _ _)).
  split; [apply board_framed with (ff := ff), held_self|].
  split; [now rewrite length_refs_at|].
  apply Forall_refs_at.
  assert (Forall (fun k => 1 <= k <= 45) (flat_held ++ grouped_offsets)) as R.
  { apply Forall_app. split; [apply flat_held_range|apply grouped_offsets_range]. }
  eapply Forall_impl; [exact R|]. intros [|k] Hk; [lia|].
  pose proof fresh_components_initial as Hfresh. rewrite Forall_forall in Hfresh.
  repeat split;
    (apply getattr_component with (ff := ff); [apply held_self| |lia];
     intros o Ho; specialize (Hfresh o (list_elem_of_lookup_2 _ _ _ Ho)); tauto).
Qed.

(** The snapshot of a constructed board is the same in every store it was
    built in and stays the same when the store grows. *)
Lemma constructed_snapshot s0 ff mb s (q : store) :
  Mainboard_new ff s0 = (Ok mb, s) ->
  snapshot snapshot_depth (s ++ q) mb =
  snapshot snapshot_depth (board_objects 0 ff) (VRef 0).
Proof.
  intros H. apply constructed_inv in H as [-> ->].
  unfold framed. rewrite <- app_assoc.
  apply (snapshot_framed s0 (board_objects (length s0) ff ++ q) ff).
  apply held_before.
Qed.

Lemma constructed_snapshot_now s0 ff mb s :
  Mainboard_new ff s0 = (Ok mb, s) ->
  snapshot snapshot_depth s mb =
  snapshot snapshot_depth (board_objects 0 ff) (VRef 0).
Proof.
  intros H. rewrite <- (app_nil_r s). now apply constructed_snapshot with s0.
Qed.

(** C7.  Two registries built with the same form factor, in whatever
    stores, have equal snapshots: the same kinds, specification tables and
    counts in every field, list and group.  The snapshot is complete and
    holds 45 components.  When the second registry is built in the store
    the first one left, it is a different object and the first registry's
    snapshot is unchanged. *)
Theorem construction_deterministic
    (s0 s0' : store) (ff : string) (mb1 mb2 : value) (s1 s2 : store) :
  Mainboard_new ff s0 = (Ok mb1, s1) ->
  Mainboard_new ff s0' = (Ok mb2, s2) ->
  snapshot snapshot_depth s1 mb1 = snapshot snapshot_depth s2 mb2 /\
  complete snapshot_depth (snapshot snapshot_depth s1 mb1) = true /\
  length (snap_components (snapshot snapshot_depth s1 mb1)) = 45 /\
  (s0' = s1 ->
   mb1 <> mb2 /\
   snapshot snapshot_depth s2 mb1 = snapshot snapshot_depth s1 mb1).
Proof.
  intros H1 H2.
  rewrite (constructed_snapshot_now _ _ _ _ H1).
  rewrite (constructed_snapshot_now _ _ _ _ H2).
  split; [reflexivity|]. split; [reflexivity|]. split; [reflexivity|].
  intros ->. rewrite Mainboard_new_store in H2.
  injection H2 as <- <-. split.
  - rewrite Mainboard_new_store in H1. injection H1 as <- <-.
    rewrite length_app. cbn [length board_objects]. intros [= E]. lia.
  - now apply constructed_snapshot with s0.
Qed.

Lemma construction_deterministic_witness :
  Mainboard_new "ATX" [] = (Ok (VRef 0), board_objects 0 "ATX") /\
  Mainboard_new "ATX" (board_objects 0 "ATX") =
    (Ok (VRef 46), board_objects 0 "ATX" ++ board_objects 46 "ATX") /\
  snapshot snapshot_depth (board_objects 0 "ATX") (VRef 0) =
  snapshot snapshot_depth (board_objects 0 "ATX" ++ board_objects 46 "ATX")
           (VRef 46) /\
  complete snapshot_depth
    (snapshot snapshot_depth (board_objects 0 "ATX") (VRef 0)) = true /\
  length (snap_components
            (snapshot snapshot_depth (board_objects 0 "ATX") (VRef 0))) = 45 /\
  (board_objects 0 "ATX" = board_objects 0 "ATX" ->
   VRef 0 <> VRef 46 /\
   snapshot snapshot_depth (board_objects 0 "ATX" ++ board_objects 46 "ATX")
            (VRef 0) =
   snapshot snapshot_depth (board_objects 0 "ATX") (VRef 0)).
Proof.
  split; [reflexivity|]. split; [vm_compute; reflexivity|].
  apply (construction_deterministic [] (board_objects 0 "ATX") "ATX"
           (VRef 0) (VRef 46) (board_objects 0 "ATX")
           (board_objects 0 "ATX" ++ board_objects 46 "ATX"));
    vm_compute; reflexivity.
Defined.

(** C8.  Two registries built with form factors [f1] and [f2], in whatever
    stores, have snapshots that are equal once the [form_factor] field is
    left out; that field holds [f1] in the one and [f2] in the other, and
    the 45 component snapshots are the same. *)
Theorem form_factor_only_labels
    (s0 s0' : store) (f1 f2 : string) (mb1 mb2 : value) (s1 s2 : store) :
  Mainboard_new f1 s0 = (Ok mb1, s1) ->
  Mainboard_new f2 s0' = (Ok mb2, s2) ->
  without_field "form_factor" (snapshot snapshot_depth s1 mb1) =
  without_field "form_factor" (snapshot snapshot_depth s2 mb2) /\
  snap_field "form_factor" (snapshot snapshot_depth s1 mb1) =
    Some (SVal (VStr f1)) /\
  snap_field "form_factor" (snapshot snapshot_depth s2 mb2) =
    Some (SVal (VStr f2)) /\
  snap_components (snapshot snapshot_depth s1 mb1) =
  snap_components (snapshot snapshot_depth s2 mb2) /\
  length (snap_components (snapshot snapshot_depth s1 mb1)) = 45.
Proof.
  intros H1 H2.
  rewrite (constructed_snapshot_now _ _ _ _ H1).
  rewrite (constructed_snapshot_now _ _ _ _ H2).
  do 4 (split; [vm_compute; reflexivity|]).
  vm_compute; reflexivity.
Qed.

Lemma form_factor_only_labels_witness :
  Mainboard_new "ATX" [] = (Ok (VRef 0), board_objects 0 "ATX") /\
  Mainboard_new "E-ATX" [] = (Ok (VRef 0), board_objects 0 "E-ATX") /\
  without_field "form_factor"
    (snapshot snapshot_depth (board_objects 0 "ATX") (VRef 0)) =
  without_field "form_factor"
    (snapshot snapshot_depth (board_objects 0 "E-ATX") (VRef 0)) /\
  snap_field "form_factor"
    (snapshot snapshot_depth (board_objects 0 "ATX") (VRef 0)) =
    Some (SVal (VStr "ATX")) /\
  snap_field "form_factor"
    (snapshot snapshot_depth (board_objects 0 "E-ATX") (VRef 0)) =
    Some (SVal (VStr "E-ATX")) /\
  snap_components (snapshot snapshot_depth (board_objects 0 "ATX") (VRef 0)) =
  snap_components (snapshot snapshot_depth (board_objects 0 "E-ATX") (VRef 0)) /\
  length (snap_components
            (snapshot snapshot_depth (board_objects 0 "ATX") (VRef 0))) = 45.
Proof.
  split; [reflexivity|]. split; [reflexivity|].
  apply (form_factor_only_labels [] [] "ATX" "E-ATX" (VRef 0) (VRef 0)
           (board_objects 0 "ATX") (board_objects 0 "E-ATX"));
    reflexivity.
Defined.

(** C9.  [get_all_components] and [verify_all_components] leave the store
    as they found it, whatever they are called on: no field of any
    component or of the board changes. *)
Theorem queries_read_only (F : framework) (self : value) (s : store) :
  snd (get_all_components F self s) = s /\
  snd (verify_all_components F self s) = s.
Proof.
  split.
  - apply read_only_get_all_components.
  - apply read_only_verify_all_components.
Qed.

(** C10.  [call] does not look at its [inputs]: for any two inputs it gives
    the same result and store, those of [run_diagnostics]. *)
Theorem call_ignores_inputs
    (F : framework) (self a b : value) (s : store) :
  call F self a s = call F self b s /\
  call F self a s = run_diagnostics F self s.
Proof.
  split; [reflexivity|].
  unfold call, bind, ret.
  now destruct (run_diagnostics F self s) as [[v|e] s'].
Qed.

(** * Further properties of the code *)

(** ** Construction and the store *)

(** X3.  Construction only appends to the store: the board sits at the
    first free address, 46 objects are added, every object that was there
    before is unchanged, and every component the board owns is one of the
    new objects. *)
Theorem construction_extends_store
    (s0 : store) (ff : string) (mb : value) (s : store) :
  Mainboard_new ff s0 = (Ok mb, s) ->
  mb = VRef (length s0) /\
  length s = length s0 + 46 /\
  (forall a o, s0 !! a = Some o -> s !! a = Some o) /\
  exists o,
    object_at s mb = Some o /\
    Forall (fun c => exists a, c = VRef a /\ length s0 < a < length s)
           (owned_components s o).
Proof.
  intros H.
  assert (length s = length s0 + 46) as Hlen.
  { rewrite Mainboard_new_store in H. injection H as _ <-.
    now rewrite length_app. }
  split.
  { rewrite Mainboard_new_store in H. now injection H as <- _. }
  split; [exact Hlen|]. split.
  { rewrite Mainboard_new_store in H. injection H as _ <-.
    intros a o Ho. now apply lookup_app_l_Some. }
  rewrite Hlen. apply constructed_inv in H as [-> ->].
  exists (board_object (length s0) ff).
  split; [apply board_framed with (ff := ff), held_self|].
  rewrite (owned_components_framed _ _ ff (held_self _ _)).
  apply Forall_refs_at.
  assert (Forall (fun k => 1 <= k <= 45) (flat_held ++ grouped_offsets)) as R.
  { apply Forall_app. split; [apply flat_held_range|apply grouped_offsets_range]. }
  eapply Forall_impl; [exact R|]. intros k Hk. cbn beta in Hk |- *.
  exists (length s0 + k). split; [reflexivity|lia].
Qed.

Lemma construction_extends_store_witness :
  Mainboard_new "ATX" [] = (Ok (VRef 0), board_objects 0 "ATX") /\
  VRef 0 = VRef (length (@nil object)) /\
  length (board_objects 0 "ATX") = length (@nil object) + 46 /\
  (forall a o, (@nil object) !! a = Some o ->
               board_objects 0 "ATX" !! a = Some o) /\
  exists o,
    object_at (board_objects 0 "ATX") (VRef 0) = Some o /\
    Forall (fun c => exists a,
                c = VRef a /\
                length (@nil object) < a < length (board_objects 0 "ATX"))
           (owned_components (board_objects 0 "ATX") o).
Proof.
  split; [reflexivity|].
  apply (construction_extends_store [] "ATX"). reflexivity.
Defined.

(** X4.  Two registries built one after the other share no component:
    nothing the first owns is owned by the second. *)
Theorem registries_share_no_component
    (s0 : store) (f1 f2 : string) (mb1 mb2 : value) (s1 s2 : store)
    (o1 o2 : object) :
  Mainboard_new f1 s0 = (Ok mb1, s1) ->
  Mainboard_new f2 s1 = (Ok mb2, s2) ->
  object_at s2 mb1 = Some o1 ->
  object_at s2 mb2 = Some o2 ->
  forall c, In c (owned_components s2 o1) -> ~ In c (owned_components s2 o2).
Proof.
  intros H1 H2 Ho1 Ho2 c Hc1 Hc2.
  assert (Forall (fun k => 1 <= k <= 45) (flat_held ++ grouped_offsets)) as R.
  { apply Forall_app. split; [apply flat_held_range|apply grouped_offsets_range]. }
  rewrite Forall_forall in R.
  pose proof (constructed_inv _ _ _ _ H2) as [E2 Es2].
  pose proof (constructed_inv _ _ _ _ H1) as [E1 Es1].
  assert (length s1 = length s0 + 46) as Hlen.
  { rewrite Es1. unfold framed. now rewrite length_app. }
  (* the second board, seen from its own address *)
  assert (o2 = board_object (length s1) f2) as ->.
  { rewrite E2, Es2 in Ho2.
    rewrite (board_framed _ _ f2 (held_self _ _)) in Ho2. congruence. }
  rewrite Es2 in Hc2.
  rewrite (owned_components_framed _ _ f2 (held_self _ _)) in Hc2.
  (* the first board, seen in the larger store *)
  assert (s2 = framed s0 (board_objects (length s0) f1 ++
                          board_objects (length s1) f2)) as Es2'.
  { rewrite Es2, Es1. unfold framed. now rewrite <- app_assoc. }
  assert (o1 = board_object (length s0) f1) as ->.
  { rewrite E1, Es2' in Ho1.
    rewrite (board_framed _ _ f1 (held_before _ _ _)) in Ho1. congruence. }
  rewrite Es2' in Hc1.
  rewrite (owned_components_framed _ _ f1 (held_before _ _ _)) in Hc1.
  apply in_refs_at in Hc1 as (k1 & -> & Hk1).
  apply in_refs_at in Hc2 as (k2 & E & Hk2).
  injection E as E.
  apply list_elem_of_In, R in Hk1. apply list_elem_of_In, R in Hk2. lia.
Qed.

Lemma registries_share_no_component_witness :
  Mainboard_new "ATX" [] = (Ok (VRef 0), board_objects 0 "ATX") /\
  Mainboard_new "E-ATX" (board_objects 0 "ATX") =
    (Ok (VRef 46), board_objects 0 "ATX" ++ board_objects 46 "E-ATX") /\
  forall c,
    In c (owned_components (board_objects 0 "ATX" ++ board_objects 46 "E-ATX")
            (board_object 0 "ATX")) ->
    ~ In c (owned_components
              (board_objects 0 "ATX" ++ board_objects 46 "E-ATX")
              (board_object 46 "E-ATX")).
Proof.
  split; [reflexivity|]. split; [vm_compute; reflexivity|].
  apply (registries_share_no_component [] "ATX" "E-ATX" (VRef 0) (VRef 46)
           (board_objects 0 "ATX")
           (board_objects 0 "ATX" ++ board_objects 46 "E-ATX"));
    vm_compute; reflexivity.
Defined.

(** The store that [MainboardComponent(kind, specs, location)] leaves. *)
Lemma MainboardComponent_new_store (s : store) kind specs location :
  MainboardComponent_new kind specs location s =
  (Ok (VRef (length s)),
   s ++ [Object MainboardComponent
           [("component_type", VStr kind); ("specs", VDict specs);
            ("location", location); ("connections", VList []);
            ("temperature", VInt 0); ("power_draw", VInt 0);
            ("status", VStr "operational")]]).
Proof.
  unfold MainboardComponent_new, MainboardComponent_init, bind.
  rewrite <- (app_nil_r s) at 1.
  rewrite new_object_frame. cbn [length app].
  repeat (rewrite setattr_frame by reflexivity;
          cbn [lookup list_lookup insert list_insert]).
  rewrite Nat.add_0_r. reflexivity.
Qed.

(** X5.  [MainboardComponent(kind, specs, location)] allocates one object
    at the first free address and changes nothing else; the new object is a
    component whose [component_type], [specs] and [location] read back as
    passed, with an empty [connections] list, temperature 0, power draw 0
    and status ['operational']. *)
Theorem MainboardComponent_new_fields
    (F : framework) (kind : string) (specs : list (string * value))
    (location : value) (s : store) :
  exists c s',
    MainboardComponent_new kind specs location s = (Ok c, s') /\
    c = VRef (length s) /\
    length s' = S (length s) /\
    (forall a o, s !! a = Some o -> s' !! a = Some o) /\
    is_component s' c = true /\
    getattr F c "component_type" s' = (Ok (VStr kind), s') /\
    getattr F c "specs" s' = (Ok (VDict specs), s') /\
    getattr F c "location" s' = (Ok location, s') /\
    getattr F c "connections" s' = (Ok (VList []), s') /\
    getattr F c "temperature" s' = (Ok (VInt 0), s') /\
    getattr F c "power_draw" s' = (Ok (VInt 0), s') /\
    getattr F c "status" s' = (Ok (VStr "operational"), s').
Proof.
  eexists _, _. split; [apply MainboardComponent_new_store|].
  split; [reflexivity|].
  split; [rewrite length_app; cbn; lia|].
  split; [intros a o Ho; now apply lookup_app_l_Some|].
  assert (forall x : object, (s ++ [x]) !! length s = Some x) as Hlast.
  { intros x. rewrite lookup_app_r by lia. now rewrite Nat.sub_diag. }
  split; [unfold is_component, object_at; now rewrite Hlast|].
  repeat split; rewrite (getattr_at F _ _ _ _ (Hlast _)); reflexivity.
Qed.

(** ** [get_all_components] on any object *)

Lemma is_component_at (s : store) (a : addr) (o : object) :
  s !! a = Some o ->
  is_component s (VRef a) = class_eqb (obj_class o) MainboardComponent.
Proof. intros H. unfold is_component, object_at. now rewrite H. Qed.

Lemma is_component_ref (s : store) (v : value) :
  is_component s v = true -> exists a, v = VRef a.
Proof.
  unfold is_component, object_at. destruct v; try discriminate. eauto.
Qed.

(** What one attribute value contributes, once its references point at
    objects. *)
Lemma contribution_listed (s : store) (attr : value) :
  head_allocated s attr = true ->
  exists l, contribution s attr = Ok l /\ forall c, In c l <-> listed s attr c.
Proof.
  unfold head_allocated, allocated, listed. intros H.
  destruct attr as [| | | |[|first rest]| |b|];
    try (exists []; split; [reflexivity|]; intros c; split;
         [intros []|
          intros [[<- Hc]|(f & r & E & _)];
          [apply is_component_ref in Hc as [? ?]|]; discriminate]).
  - (* a list *)
    destruct first as [| | | | | |b|];
      try (exists []; split; [reflexivity|]; intros c; split;
           [intros []|
            intros [[<- Hc]|(f & r & [= <- <-] & Hf & _)];
            [apply is_component_ref in Hc as [? ?]|
             apply is_component_ref in Hf as [? ?]]; discriminate]).
    cbn [contribution]. destruct (s !! b) as [ob|] eqn:Hb; [|discriminate].
    destruct (class_eqb (obj_class ob) MainboardComponent) eqn:Hc.
    + eexists. split; [reflexivity|]. intros c. split.
      * intros Hin. right. exists (VRef b), rest.
        rewrite (is_component_at _ _ _ Hb). auto.
      * intros [[<- Hx]|(f & r & [= <- <-] & _ & Hin)]; [|exact Hin].
        apply is_component_ref in Hx as [? ?]. discriminate.
    + exists []. split; [reflexivity|]. intros c. split; [intros []|].
      intros [[<- Hx]|(f & r & [= <- <-] & Hf & _)].
      * apply is_component_ref in Hx as [? ?]. discriminate.
      * rewrite (is_component_at _ _ _ Hb) in Hf. congruence.
  - (* an object *)
    cbn [contribution]. destruct (s !! b) as [ob|] eqn:Hb; [|discriminate].
    destruct (class_eqb (obj_class ob) MainboardComponent) eqn:Hc.
    + eexists. split; [reflexivity|]. intros c. split.
      * intros [<-|[]]. left. rewrite (is_component_at _ _ _ Hb). auto.
      * intros [[<- _]|(f & r & E & _)]; [now left|discriminate].
    + exists []. split; [reflexivity|]. intros c. split; [intros []|].
      intros [[<- Hx]|(f & r & E & _)]; [|discriminate].
      rewrite (is_component_at _ _ _ Hb) in Hx. congruence.
Qed.

(** The loop takes something from a value only after it found an object
    where the value, or its first member, points. *)
Lemma contribution_allocated (s : store) (attr : value) (l : list value) :
  contribution s attr = Ok l -> head_allocated s attr = true.
Proof.
  unfold head_allocated, allocated.
  destruct attr as [| | | |[|[| | | | | |b|] rest]| |b|];
    try reflexivity; cbn [contribution];
    now destruct (s !! b).
Qed.

Lemma contribution_Ok_listed (s : store) (attr : value) (l : list value) :
  contribution s attr = Ok l -> forall c, In c l <-> listed s attr c.
Proof.
  intros H.
  destruct (contribution_listed s attr (contribution_allocated _ _ _ H))
    as (l' & Hl' & Hmem).
  now assert (l' = l) as <- by congruence.
Qed.

(** X6.  On any object, whatever the base classes add to it.  When
    [get_all_components] returns, it returns exactly the components held
    directly under a name that [dir] lists and all members of the lists
    held under such a name whose first element is a component.  Nothing
    else is looked into: not a dictionary, not an empty list, not a list
    that starts with anything else; and a list that starts with a
    component is taken whole, whatever its other members are.  When it
    raises, reading one of the listed names raised, or the name holds a
    reference to no object.  It returns when every listed name can be read
    and what it holds refers to an object. *)
Theorem get_all_components_members
    (F : framework) (s : store) (a : addr) (o : object) :
  s !! a = Some o ->
  (forall cs,
      get_all_components F (VRef a) s = (Ok cs, s) ->
      forall c,
        In c cs <->
        exists n v, In n (scanned_names F o) /\ read F s o n = Ok v /\
                    listed s v c) /\
  (forall e,
      get_all_components F (VRef a) s = (Raise e, s) ->
      exists n, In n (scanned_names F o) /\ taken F s o n = Raise e) /\
  ((forall n, In n (scanned_names F o) ->
              exists v, read F s o n = Ok v /\ head_allocated s v = true) ->
   exists cs, get_all_components F (VRef a) s = (Ok cs, s)).
Proof.
  intros Ho. rewrite (get_all_components_run F _ _ _ Ho).
  split; [|split].
  - intros cs H. apply (f_equal fst) in H. cbn [fst] in H.
    apply collect_Ok in H as [-> Hall]. cbn [app].
    intros c. rewrite in_flat_map. split.
    + intros (n & Hn & Hc). destruct (Hall n Hn) as [l Hl].
      rewrite Hl in Hc. cbn [or_nothing] in Hc.
      unfold taken in Hl. destruct (read F s o n) as [v|] eqn:Hv;
        [|discriminate].
      exists n, v. split; [exact Hn|]. split; [exact Hv|].
      apply (contribution_Ok_listed _ _ _ Hl). exact Hc.
    + intros (n & v & Hn & Hv & Hlst). exists n. split; [exact Hn|].
      destruct (Hall n Hn) as [l Hl]. rewrite Hl. cbn [or_nothing].
      unfold taken in Hl. rewrite Hv in Hl.
      apply (contribution_Ok_listed _ _ _ Hl). exact Hlst.
  - intros e H. apply (f_equal fst) in H. cbn [fst] in H.
    exact (collect_Raise _ _ _ _ _ _ H).
  - intros Hall.
    destruct (collect_returns F s o (scanned_names F o)) with (acc := @nil value)
      as [cs Hcs].
    { intros n Hn. destruct (Hall n Hn) as (v & Hv & Halloc).
      destruct (contribution_listed s v Halloc) as (l & Hl & _).
      exists l. unfold taken. rewrite Hv. exact Hl. }
    exists cs. rewrite Hcs. reflexivity.
Qed.

Lemma get_all_components_members_witness :
  board_objects 0 "ATX" !! 0 = Some (board_object 0 "ATX") /\
  (forall cs,
      get_all_components sub_layers (VRef 0) (board_objects 0 "ATX") =
        (Ok cs, board_objects 0 "ATX") ->
      forall c,
        In c cs <->
        exists n v,
          In n (scanned_names sub_layers (board_object 0 "ATX")) /\
          read sub_layers (board_objects 0 "ATX") (board_object 0 "ATX") n =
            Ok v /\
          listed (board_objects 0 "ATX") v c) /\
  (forall e,
      get_all_components sub_layers (VRef 0) (board_objects 0 "ATX") =
        (Raise e, board_objects 0 "ATX") ->
      exists n,
        In n (scanned_names sub_layers (board_object 0 "ATX")) /\
        taken sub_layers (board_objects 0 "ATX") (board_object 0 "ATX") n =
          Raise e) /\
  ((forall n,
       In n (scanned_names sub_layers (board_object 0 "ATX")) ->
       exists v,
         read sub_layers (board_objects 0 "ATX") (board_object 0 "ATX") n =
           Ok v /\
         head_allocated (board_objects 0 "ATX") v = true) ->
   exists cs,
     get_all_components sub_layers (VRef 0) (board_objects 0 "ATX") =
     (Ok cs, board_objects 0 "ATX")).
Proof.
  split; [reflexivity|].
  apply (get_all_components_members sub_layers (board_objects 0 "ATX") 0
           (board_object 0 "ATX")).
  reflexivity.
Defined.

(** ** [verify_all_components] and what it is given *)

(** X7.  Whatever the store holds: when [get_all_components] returns [cs]
    and every member of [cs] has a string [component_type] and a [status],
    [verify_all_components] returns the dictionary that assigns, in the
    order of [cs], each member's status to its kind.  The dictionary has no
    repeated key and no more entries than [cs] has members. *)
Theorem verify_all_components_assigns
    (F : framework) (self : value) (s : store) (cs : list value)
    (kvs : list (string * value)) :
  get_all_components F self s = (Ok cs, s) ->
  entries s cs = Some kvs ->
  verify_all_components F self s = (Ok (VDict (dict_of kvs)), s) /\
  NoDup (dict_keys (dict_of kvs)) /\
  length (dict_of kvs) <= length cs.
Proof.
  intros Hcs Hkvs. split; [|split].
  - now apply verify_all_components_run with cs.
  - apply dict_of_NoDup.
  - rewrite <- (entries_length _ _ _ Hkvs).
    exact (assign_length kvs []).
Qed.

Lemma verify_all_components_assigns_witness :
  get_all_components bare (VRef 0) (board_objects 0 "ATX") =
    (Ok (refs_at 0 flat_offsets), board_objects 0 "ATX") /\
  entries (board_objects 0 "ATX") (refs_at 0 flat_offsets) =
    Some flat_kinds_and_status /\
  verify_all_components bare (VRef 0) (board_objects 0 "ATX") =
    (Ok (VDict (dict_of flat_kinds_and_status)), board_objects 0 "ATX") /\
  NoDup (dict_keys (dict_of flat_kinds_and_status)) /\
  length (dict_of flat_kinds_and_status) <= length (refs_at 0 flat_offsets).
Proof.
  split; [reflexivity|]. split; [reflexivity|].
  apply (verify_all_components_assigns bare (VRef 0)
           (board_objects 0 "ATX"));
    reflexivity.
Defined.

(** X8.  [verify_all_components] has no guard of its own: when a member of
    what [get_all_components] returns has no [component_type], as a string
    or [None] in a list that starts with a component has none, the read
    raises and so does [verify_all_components], with the same exception,
    provided the members before it were readable. *)
Theorem verify_all_components_unreadable
    (F : framework) (self : value) (s : store) (pre : list value)
    (c : value) (post : list value) (kvs : list (string * value))
    (e : exn) :
  get_all_components F self s = (Ok (pre ++ c :: post), s) ->
  entries s pre = Some kvs ->
  getattr F c "component_type" s = (Raise e, s) ->
  verify_all_components F self s = (Raise e, s).
Proof.
  intros Hcs Hpre Hc.
  unfold verify_all_components. unfold bind at 1. rewrite Hcs.
  unfold bind at 1. rewrite for_each_app.
  rewrite (verify_loop _ _ _ _ _ Hpre).
  rewrite for_each_cons. cbv beta. unfold bind at 1. now rewrite Hc.
Qed.

Lemma verify_all_components_unreadable_witness :
  let s := <[0 := set_field "spares" (VList [VRef 1; VStr "junk"])
                    (board_object 0 "ATX")]> (board_objects 0 "ATX") in
  setattr (VRef 0) "spares" (VList [VRef 1; VStr "junk"])
          (board_objects 0 "ATX") = (Ok tt, s) /\
  verify_all_components bare (VRef 0) s =
  (Raise (AttributeError "str" "component_type"), s).
Proof.
  split; [reflexivity|].
  apply (verify_all_components_unreadable bare (VRef 0) _
           (refs_at 0 ([37; 36; 2; 1; 35] ++ seq 20 8 ++ seq 7 4 ++ seq 3 4
                       ++ [38] ++ seq 28 2 ++ seq 11 8 ++ [1]))
           (VStr "junk")
           (refs_at 0 (seq 39 2 ++ [19]))
           (map (fun k => (k, VStr "operational"))
              (["Audio"; "BIOS"; "Chipset"; "CPU Socket"; "Debug System"]
               ++ repeat "Fan Header" 8 ++ repeat "M.2 Slot" 4
               ++ repeat "RAM Slot" 4 ++ ["Network"] ++ repeat "Pump Header" 2
               ++ repeat "SATA Port" 8 ++ ["CPU Socket"])));
    vm_compute; reflexivity.
Defined.

(** ** Writing a status *)

Lemma setattr_Ok (s s' : store) (b : addr) (n : string) (v : value) :
  String.eqb n "__dict__" = false ->
  setattr (VRef b) n v s = (Ok tt, s') ->
  exists ob, s !! b = Some ob /\ s' = <[b := set_field n v ob]> s.
Proof.
  intros Hn. unfold setattr. rewrite Hn.
  destruct (s !! b) as [ob|]; [|discriminate].
  intros [= <-]. eauto.
Qed.

Lemma classes_insert (s : store) :
  forall (b : addr) (ob o' : object),
    s !! b = Some ob -> obj_class o' = obj_class ob ->
    classes (<[b := o']> s) = classes s.
Proof.
  unfold classes.
  induction s as [|x s IH]; intros [|b] ob o' Hb Hc; try discriminate.
  - injection Hb as ->. cbn. now rewrite Hc.
  - cbn. f_equal. now apply IH with ob.
Qed.

Section Write.

Variables (F : framework) (s : store) (b : addr) (ob : object) (n : string)
  (v : value).

Hypothesis at_b : s !! b = Some ob.

Let s' : store := <[b := set_field n v ob]> s.

Lemma write_lookup_eq : s' !! b = Some (set_field n v ob).
Proof.
  apply list_lookup_insert_eq. now apply lookup_lt_Some with ob.
Qed.

Lemma write_lookup_ne (a : addr) : a <> b -> s' !! a = s !! a.
Proof. intros H. apply list_lookup_insert_ne. congruence. Qed.

Lemma write_class (a : addr) : obj_class <$> s' !! a = obj_class <$> s !! a.
Proof.
  destruct (Nat.eq_dec a b) as [->|Hne].
  - now rewrite write_lookup_eq, at_b.
  - now rewrite write_lookup_ne.
Qed.

(** A write of an attribute changes the class of no object, so what the
    base classes give on another object stays the same. *)
Lemma write_read (o : object) (m : string) : read F s' o m = read F s o m.
Proof.
  unfold read, s'. now rewrite (classes_insert s b ob).
Qed.

Lemma write_contribution (attr : value) :
  contribution s' attr = contribution s attr.
Proof.
  assert (forall a (f : object -> list value),
             (forall o o', obj_class o = obj_class o' -> f o = f o') ->
             match s' !! a with
             | Some o => Ok (f o)
             | None => Raise (Dangling a)
             end =
             match s !! a with
             | Some o => Ok (f o)
             | None => Raise (Dangling a)
             end) as H.
  { intros a f Hf. pose proof (write_class a) as Hc.
    destruct (s' !! a) as [o1|], (s !! a) as [o2|]; cbn in Hc;
      try discriminate; [|reflexivity].
    injection Hc as Hc. f_equal. now apply Hf. }
  destruct attr as [| | | |[|[| | | | | |c|] rest]| |a|]; try reflexivity.
  - cbn [contribution].
    apply (H c (fun o => if class_eqb (obj_class o) MainboardComponent
                         then VRef c :: rest else [])).
    now intros o o' ->.
  - cbn [contribution].
    apply (H a (fun o => if class_eqb (obj_class o) MainboardComponent
                         then [VRef a] else [])).
    now intros o o' ->.
Qed.

Lemma write_taken (o : object) (m : string) :
  taken F s' o m = taken F s o m.
Proof.
  unfold taken. rewrite write_read.
  destruct (read F s o m) as [attr|e]; [|reflexivity].
  apply write_contribution.
Qed.

Lemma write_collect (o : object) (names : list string) :
  forall acc, collect F s' o names acc = collect F s o names acc.
Proof.
  induction names as [|m names IH]; intros acc; [reflexivity|].
  cbn [collect]. rewrite write_taken.
  destruct (taken F s o m); [apply IH|reflexivity].
Qed.

(** A write to another object does not change what the registry lists. *)
Lemma write_get_all_components (a : addr) (r : result (list value)) :
  a <> b ->
  get_all_components F (VRef a) s = (r, s) ->
  get_all_components F (VRef a) s' = (r, s').
Proof.
  intros Hne H.
  destruct (s !! a) as [o|] eqn:Ho.
  - rewrite (get_all_components_run F _ _ _ Ho) in H.
    rewrite <- (write_lookup_ne a Hne) in Ho.
    rewrite (get_all_components_run F _ _ _ Ho), write_collect.
    congruence.
  - rewrite (get_all_components_dangling F _ _ Ho) in H.
    rewrite <- (write_lookup_ne a Hne) in Ho.
    rewrite (get_all_components_dangling F _ _ Ho). congruence.
Qed.

(** Nor does it change what reading another object gives. *)
Lemma write_getattr (a : addr) (m : string) (r : result value) :
  a <> b ->
  getattr F (VRef a) m s = (r, s) ->
  getattr F (VRef a) m s' = (r, s').
Proof.
  intros Hne H. unfold getattr, bind, deref in *.
  rewrite (write_lookup_ne a Hne).
  destruct (s !! a) as [o|]; [|congruence].
  rewrite write_read. congruence.
Qed.

Lemma attr_of_set_ne (o : object) (m : string) :
  m <> n -> attr_of (set_field n v o) m = attr_of o m.
Proof.
  intros H. unfold attr_of, set_field. cbn [obj_dict obj_class].
  now rewrite dict_get_set_ne.
Qed.

Lemma attr_of_set_eq (o : object) : attr_of (set_field n v o) n = Ok v.
Proof.
  unfold attr_of, set_field. cbn [obj_dict]. now rewrite dict_get_set_eq.
Qed.

Lemma write_field_ne (x : value) (m : string) :
  m <> n -> field s' x m = field s x m.
Proof.
  intros H. unfold field, object_at. destruct x as [| | | | | |a|]; auto.
  destruct (Nat.eq_dec a b) as [->|Hne].
  - rewrite write_lookup_eq, at_b. now rewrite attr_of_set_ne.
  - now rewrite write_lookup_ne.
Qed.

Lemma write_field_other (x : value) (m : string) :
  refers_to b x = false -> field s' x m = field s x m.
Proof.
  intros H. unfold field, object_at. destruct x as [| | | | | |a|]; auto.
  cbn in H. apply Nat.eqb_neq in H. now rewrite write_lookup_ne.
Qed.

Lemma write_field_eq (x : value) :
  refers_to b x = true -> field s' x n = Some v.
Proof.
  intros H. destruct x as [| | | | | |a|]; try discriminate.
  cbn in H. apply Nat.eqb_eq in H. subst a.
  unfold field, object_at. now rewrite write_lookup_eq, attr_of_set_eq.
Qed.

End Write.

(** ** Dictionaries that differ at one key *)

Section Sim.

Variable k : string.

Let sim (d d' : list (string * value)) : Prop :=
  Forall2 (fun e e' => fst e = fst e' /\ (fst e <> k -> snd e = snd e')) d d'.

Lemma sim_refl d : sim d d.
Proof. induction d; constructor; auto. Qed.

Lemma sim_set (k0 : string) (v1 v2 : value) d d' :
  (k0 <> k -> v1 = v2) ->
  sim d d' -> sim (dict_set k0 v1 d) (dict_set k0 v2 d').
Proof.
  intros Hv. induction 1 as [|[k1 x1] [k2 x2] d d' [E1 E2] Hsim IH]; cbn.
  - repeat constructor; auto.
  - cbn in E1, E2. subst k2.
    destruct (String.eqb k0 k1) eqn:E.
    + apply String.eqb_eq in E. subst k1. constructor; [cbn; auto|exact Hsim].
    + constructor; [cbn; auto|exact IH].
Qed.

Lemma sim_without_key d d' :
  sim d d' -> ~ In k (dict_keys d) -> d = d'.
Proof.
  induction 1 as [|[k1 x1] [k2 x2] d d' [E1 E2] Hsim IH]; cbn;
    [reflexivity|].
  cbn in E1, E2. subst k2. intros Hk.
  rewrite E2 by (intros ->; apply Hk; now left).
  f_equal. apply IH. intros Hin. apply Hk. now right.
Qed.

Lemma sim_set_eq (x : value) d d' :
  NoDup (dict_keys d) -> sim d d' -> dict_set k x d = dict_set k x d'.
Proof.
  intros Hnd. induction 1 as [|[k1 x1] [k2 x2] d d' [E1 E2] Hsim IH]; cbn;
    [reflexivity|].
  cbn in E1, E2, Hnd. subst k2.
  inversion Hnd as [|? ? Hnotin Hnd']; subst.
  destruct (String.eqb k k1) eqn:E.
  - apply String.eqb_eq in E. subst k1. f_equal.
    apply sim_without_key; [exact Hsim|].
    intros Hin. apply Hnotin. now apply list_elem_of_In.
  - apply String.eqb_neq in E. rewrite E2 by congruence.
    f_equal. now apply IH.
Qed.

End Sim.

Lemma entry_kind (s : store) (x : value) (k : string) (st : value) :
  entry_of s x = Some (k, st) -> kind_of s x = Some k.
Proof.
  unfold entry_of. destruct (kind_of s x) as [k'|]; [|discriminate].
  destruct (field s x "status"); [|discriminate]. now intros [= -> _].
Qed.

Lemma entries_app (s : store) (l1 l2 : list value) :
  entries s (l1 ++ l2) =
  match entries s l1, entries s l2 with
  | Some k1, Some k2 => Some (k1 ++ k2)
  | _, _ => None
  end.
Proof.
  induction l1 as [|x l1 IH]; cbn [app entries].
  - now destruct (entries s l2).
  - destruct (entry_of s x) as [e|]; [|reflexivity].
    rewrite IH.
    destruct (entries s l1) as [k1|]; [|reflexivity].
    now destruct (entries s l2).
Qed.

Lemma entries_without_kind (s : store) (k : string) (cs : list value) :
  forall kvs,
    entries s cs = Some kvs ->
    forallb (fun y => negb (has_kind s k y)) cs = true ->
    ~ In k (map fst kvs).
Proof.
  induction cs as [|x cs IH]; intros kvs H Hk; cbn [entries] in H.
  - injection H as <-. intros [].
  - destruct (entry_of s x) as [[kx st]|] eqn:Hx; [|discriminate].
    destruct (entries s cs) as [es|] eqn:Hes; [|discriminate].
    injection H as <-. cbn in Hk. apply andb_true_iff in Hk as [Hx' Hk].
    cbn. intros [E|Hin].
    + subst kx. unfold has_kind in Hx'.
      rewrite (entry_kind _ _ _ _ Hx), String.eqb_refl in Hx'. discriminate.
    + exact (IH es eq_refl Hk Hin).
Qed.

(** The store after [obj.status = v] on the object at [b]. *)
Section StatusWrite.

Variables (s : store) (b : addr) (ob : object) (v : value).

Hypothesis at_b : s !! b = Some ob.

Let s' : store := <[b := set_field "status" v ob]> s.

Lemma status_write_kind (x : value) : kind_of s' x = kind_of s x.
Proof.
  unfold kind_of, s'. rewrite write_field_ne; [reflexivity|exact at_b|].
  discriminate.
Qed.

Lemma status_write_entry (x : value) (k : string) (st : value) :
  entry_of s x = Some (k, st) ->
  entry_of s' x = Some (k, if refers_to b x then v else st).
Proof.
  intros H. pose proof (entry_kind _ _ _ _ H) as Hk.
  apply entry_of_Some in H as [_ Hst]. apply entry_of_Some.
  split.
  - pose proof (status_write_kind x) as E. rewrite Hk in E.
    unfold kind_of in E.
    destruct (field s' x "component_type") as [[| | |k'| | | |]|];
      try discriminate.
    now injection E as ->.
  - unfold s'. destruct (refers_to b x) eqn:Hb.
    + now apply write_field_eq.
    + rewrite write_field_other; auto.
Qed.

Lemma status_write_entries (cs : list value) :
  forall kvs,
    entries s cs = Some kvs ->
    exists kvs', entries s' cs = Some kvs' /\ map fst kvs' = map fst kvs.
Proof.
  induction cs as [|x cs IH]; intros kvs H; cbn [entries] in H |- *.
  - injection H as <-. now exists [].
  - destruct (entry_of s x) as [[k st]|] eqn:Hx; [|discriminate].
    destruct (entries s cs) as [es|] eqn:Hes; [|discriminate].
    injection H as <-.
    destruct (IH es eq_refl) as (es' & Hes' & Hfst).
    rewrite (status_write_entry _ _ _ Hx), Hes'.
    eexists. split; [reflexivity|]. cbn. now rewrite Hfst.
Qed.

(** Assigning the entries read after the write gives the same dictionary
    as before it, when every listing of [b] is followed by another object
    of its kind. *)
Lemma masked_fold (cs : list value) :
  forall kvs,
    entries s cs = Some kvs ->
    masked s b cs = true ->
    forall d d',
      NoDup (dict_keys d) ->
      (d = d' \/
       exists k,
         kind_of s (VRef b) = Some k /\
         Forall2 (fun e e' => fst e = fst e' /\
                              (fst e <> k -> snd e = snd e')) d d' /\
         existsb (other_of_kind s b) cs = true) ->
      exists kvs',
        entries s' cs = Some kvs' /\
        fold_left assign kvs' d' = fold_left assign kvs d.
Proof.
  induction cs as [|x cs IH]; intros kvs H Hm d d' Hnd Hinv;
    cbn [entries] in H.
  - injection H as <-. exists []. split; [reflexivity|].
    destruct Hinv as [->|(k & _ & _ & Hex)]; [reflexivity|discriminate].
  - destruct (entry_of s x) as [[kx st]|] eqn:Hx; [|discriminate].
    destruct (entries s cs) as [es|] eqn:Hes; [|discriminate].
    injection H as <-.
    cbn [masked] in Hm. apply andb_true_iff in Hm as [Hfollow Hm].
    pose proof (status_write_entry _ _ _ Hx) as Hx'.
    pose proof (entry_kind _ _ _ _ Hx) as Hkx.
    assert (NoDup (dict_keys (dict_set kx st d))) as Hnd1
      by now apply dict_set_NoDup.
    cbn [entries]. rewrite Hx'.
    destruct (refers_to b x) eqn:Hb.
    + (* the written object: its status differs, its kind comes again *)
      assert (x = VRef b) as ->.
      { destruct x; try discriminate. cbn in Hb.
        apply Nat.eqb_eq in Hb. now subst. }
      destruct (IH es eq_refl Hm (dict_set kx st d) (dict_set kx v d') Hnd1)
        as (es' & Hes' & Hfold).
      { right. exists kx. split; [exact Hkx|]. split; [|exact Hfollow].
        destruct Hinv as [->|(k & Hk & Hsim & _)].
        - apply sim_set; [tauto|apply sim_refl].
        - assert (k = kx) as -> by congruence.
          apply sim_set; [tauto|exact Hsim]. }
      rewrite Hes'. eexists. split; [reflexivity|exact Hfold].
    + (* another object: the same entry on both sides *)
      destruct (IH es eq_refl Hm (dict_set kx st d) (dict_set kx st d') Hnd1)
        as (es' & Hes' & Hfold).
      { destruct Hinv as [->|(k & Hk & Hsim & Hex)]; [now left|].
        destruct (String.eqb_spec kx k) as [->|Hne].
        - left. now apply sim_set_eq.
        - right. exists k. split; [exact Hk|]. split.
          + apply sim_set; [tauto|exact Hsim].
          + cbn [existsb] in Hex. apply orb_true_iff in Hex as [Hx0|Hex];
              [|exact Hex].
            unfold other_of_kind in Hx0. rewrite Hk in Hx0.
            unfold has_kind in Hx0. rewrite Hkx in Hx0.
            apply String.eqb_neq in Hne. rewrite Hne, andb_false_r in Hx0.
            discriminate. }
      rewrite Hes'. eexists. split; [reflexivity|exact Hfold].
Qed.

End StatusWrite.

(** X9.  [verify_all_components] does not show a status that is written to
    a component when every place where [get_all_components] lists that
    component is followed by another component of the same kind, and never
    when the component is not listed at all: the mapping is the one
    returned before the write. *)
Theorem status_write_masked
    (F : framework) (a b : addr) (s s' : store) (cs : list value)
    (kvs : list (string * value)) (v : value) :
  a <> b ->
  get_all_components F (VRef a) s = (Ok cs, s) ->
  entries s cs = Some kvs ->
  masked s b cs = true ->
  setattr (VRef b) "status" v s = (Ok tt, s') ->
  verify_all_components F (VRef a) s = (Ok (VDict (dict_of kvs)), s) /\
  verify_all_components F (VRef a) s' = (Ok (VDict (dict_of kvs)), s').
Proof.
  intros Hab Hcs Hkvs Hm Hw.
  split; [now apply verify_all_components_run with cs|].
  apply setattr_Ok in Hw as (ob & Hb & ->); [|reflexivity].
  destruct (masked_fold s b ob v Hb cs kvs Hkvs Hm [] [])
    as (kvs' & Hkvs' & Hfold).
  { constructor. }
  { now left. }
  rewrite (verify_all_components_run F _ _ cs kvs').
  - unfold dict_of. now rewrite Hfold.
  - now apply write_get_all_components.
  - exact Hkvs'.
Qed.

Lemma status_write_masked_witness :
  let s := board_objects 0 "ATX" in
  let s' := <[3 := set_field "status" (VStr "failed")
                     (component_object "RAM Slot" ram_slot_specs)]> s in
  0 <> 3 /\
  get_all_components bare (VRef 0) s = (Ok (refs_at 0 flat_offsets), s) /\
  entries s (refs_at 0 flat_offsets) = Some flat_kinds_and_status /\
  masked s 3 (refs_at 0 flat_offsets) = true /\
  setattr (VRef 3) "status" (VStr "failed") s = (Ok tt, s') /\
  verify_all_components bare (VRef 0) s =
    (Ok (VDict (dict_of flat_kinds_and_status)), s) /\
  verify_all_components bare (VRef 0) s' =
    (Ok (VDict (dict_of flat_kinds_and_status)), s').
Proof.
  cbv zeta.
  split; [lia|]. split; [reflexivity|]. split; [reflexivity|].
  split; [reflexivity|]. split; [reflexivity|].
  apply (status_write_masked bare 0 3 (board_objects 0 "ATX") _
           (refs_at 0 flat_offsets) flat_kinds_and_status (VStr "failed"));
    first [lia|vm_compute; reflexivity].
Defined.

(** X10.  A status written to the last component of its kind that
    [get_all_components] lists is what [verify_all_components] then reports
    for that kind. *)
Theorem status_write_visible
    (F : framework) (a b : addr) (s s' : store) (pre post : list value)
    (kvs : list (string * value)) (k : string) (v : value) :
  a <> b ->
  get_all_components F (VRef a) s = (Ok (pre ++ VRef b :: post), s) ->
  entries s (pre ++ VRef b :: post) = Some kvs ->
  kind_of s (VRef b) = Some k ->
  forallb (fun y => negb (has_kind s k y)) post = true ->
  setattr (VRef b) "status" v s = (Ok tt, s') ->
  exists d,
    verify_all_components F (VRef a) s' = (Ok (VDict d), s') /\
    dict_get k d = Some v.
Proof.
  intros Hab Hcs Hkvs Hk Hpost Hw.
  apply setattr_Ok in Hw as (ob & Hb & ->); [|reflexivity].
  rewrite entries_app in Hkvs. cbn [entries] in Hkvs.
  destruct (entries s pre) as [kpre|] eqn:Hpre; [|discriminate].
  destruct (entry_of s (VRef b)) as [[kb st]|] eqn:Hentry; [|discriminate].
  destruct (entries s post) as [kpost|] eqn:Hkpost; [|discriminate].
  assert (kb = k) as ->.
  { apply entry_kind in Hentry. congruence. }
  destruct (status_write_entries s b ob v Hb pre kpre Hpre)
    as (kpre' & Hpre' & _).
  destruct (status_write_entries s b ob v Hb post kpost Hkpost)
    as (kpost' & Hpost' & Hfst).
  pose proof (status_write_entry s b ob v Hb _ _ _ Hentry) as Hentry'.
  cbn [refers_to] in Hentry'. rewrite Nat.eqb_refl in Hentry'.
  exists (dict_of (kpre' ++ (k, v) :: kpost')). split.
  - apply verify_all_components_run with (pre ++ VRef b :: post).
    + now apply write_get_all_components.
    + rewrite entries_app. cbn [entries]. now rewrite Hpre', Hentry', Hpost'.
  - apply dict_of_last. rewrite Hfst.
    now apply (entries_without_kind s k post).
Qed.

Lemma status_write_visible_witness :
  let s := board_objects 0 "ATX" in
  let s' := <[6 := set_field "status" (VStr "failed")
                     (component_object "RAM Slot" ram_slot_specs)]> s in
  setattr (VRef 6) "status" (VStr "failed") s = (Ok tt, s') /\
  kind_of s (VRef 6) = Some "RAM Slot" /\
  exists d,
    verify_all_components bare (VRef 0) s' = (Ok (VDict d), s') /\
    dict_get "RAM Slot" d = Some (VStr "failed").
Proof.
  cbv zeta. split; [reflexivity|]. split; [reflexivity|].
  apply (status_write_visible bare 0 6 (board_objects 0 "ATX") _
           (refs_at 0 ([37; 36; 2; 1; 35] ++ seq 20 8 ++ seq 7 4 ++ seq 3 3))
           (refs_at 0 ([38] ++ seq 28 2 ++ seq 11 8 ++ seq 39 2 ++ [19]))
           flat_kinds_and_status "RAM Slot" (VStr "failed"));
    first [lia|vm_compute; reflexivity].
Defined.

(** ** Running [initialize_components] again *)

(** On a constructed registry [initialize_components] allocates 45 more
    components after everything else and points every attribute of the
    board at the new ones. *)
Lemma initialize_components_again_store (p : store) (ff : string) :
  initialize_components (VRef (length p + 0))
    (p ++ board_objects (length p) ff) =
  (Ok tt,
   p ++ (board_object (length p + 45) ff
         :: fresh_components ++ fresh_components)).
Proof.
  unfold initialize_components, board_objects, fresh_components.
  cbn [app repeat].
  repeat run_step.
  rewrite setattr_frame by reflexivity.
  cbn [lookup list_lookup insert list_insert].
  unfold board_object, board_dict, refs, refs_at. cbn [map seq].
  rewrite <- !Nat.add_assoc. reflexivity.
Qed.

(** A board whose components sit 45 places further on than where
    construction put them. *)
Section Moved.

Variables (p l : store) (ff : string).

Hypothesis moved_board : l !! 0 = Some (board_object (length p + 45) ff).

Hypothesis moved_components :
  forall k o, fresh_components !! k = Some o -> l !! (46 + k) = Some o.

Lemma moved_component (k : nat) (o : object) :
  fresh_components !! k = Some o ->
  object_at (framed p l) (VRef (length p + 45 + S k)) = Some o.
Proof.
  intros H. replace (length p + 45 + S k) with (length p + (46 + k)) by lia.
  now apply object_at_framed, moved_components.
Qed.

Lemma moved_is_component (k : nat) :
  1 <= k <= 45 ->
  is_component (framed p l) (VRef (length p + 45 + k)) = true.
Proof.
  intros Hk. destruct k as [|k]; [lia|].
  destruct (lookup_lt_is_Some_2 fresh_components k) as [o Ho].
  { rewrite fresh_components_length. lia. }
  unfold is_component. rewrite (moved_component k o Ho).
  pose proof fresh_components_initial as F. rewrite Forall_forall in F.
  destruct (F o (list_elem_of_lookup_2 _ _ _ Ho)) as [-> _]. reflexivity.
Qed.

Lemma moved_owned_components :
  owned_components (framed p l) (board_object (length p + 45) ff) =
  refs_at (length p + 45) (flat_held ++ grouped_offsets).
Proof.
  assert (forall ks, Forall (fun k => 1 <= k <= 45) ks ->
            Forall (fun c => is_component (framed p l) c = true)
                   (refs_at (length p + 45) ks)) as Hall.
  { intros ks H. apply Forall_refs_at.
    eapply Forall_impl; [exact H|]. intros k Hk. now apply moved_is_component. }
  unfold owned_components, flat_components, grouped_components.
  change (flat_map (fun kv => direct_refs (snd kv))
                   (obj_dict (board_object (length p + 45) ff)))
    with (refs_at (length p + 45) flat_held).
  change (flat_map (fun kv => grouped_refs (snd kv))
                   (obj_dict (board_object (length p + 45) ff)))
    with (refs_at (length p + 45) grouped_offsets).
  rewrite !filter_all
    by first [apply Hall, flat_held_range|apply Hall, grouped_offsets_range].
  unfold refs_at. now rewrite map_app.
Qed.

Lemma moved_snapshot_component (d k : nat) :
  k < 45 -> d <= snapshot_depth ->
  snapshot d (framed p l) (VRef (length p + 45 + S k)) =
  snapshot d (board_objects 0 ff) (VRef (S k)).
Proof.
  intros Hk Hd.
  destruct (lookup_lt_is_Some_2 fresh_components k) as [o Ho].
  { now rewrite fresh_components_length. }
  destruct d as [|d]; [reflexivity|].
  rewrite !snapshot_ref.
  rewrite (moved_component k o Ho).
  change (object_at (board_objects 0 ff) (VRef (S k)))
    with (fresh_components !! k).
  rewrite Ho. f_equal.
  apply map_ext_in. intros [n v] Hin. cbn [fst snd]. f_equal.
  apply snapshot_ref_free.
  apply (ref_free_le snapshot_depth); [lia|].
  pose proof fresh_components_ref_free as F.
  rewrite Forall_forall in F.
  specialize (F o (list_elem_of_lookup_2 _ _ _ Ho)).
  rewrite forallb_forall in F. exact (F (n, v) Hin).
Qed.

Lemma moved_snapshot_refs (d first n : nat) :
  1 <= first -> first + n <= 46 -> d <= snapshot_depth ->
  map (snapshot d (framed p l)) (refs (length p + 45) first n) =
  map (snapshot d (board_objects 0 ff)) (refs 0 first n).
Proof.
  intros H1 H2 Hd. unfold refs, refs_at. rewrite !map_map.
  apply map_ext_in. intros k Hk. apply in_seq in Hk.
  destruct k as [|k]; [lia|].
  apply moved_snapshot_component; lia.
Qed.

Lemma moved_snapshot :
  snapshot snapshot_depth (framed p l) (VRef (length p + 0)) =
  snapshot snapshot_depth (board_objects 0 ff) (VRef 0).
Proof.
  unfold snapshot_depth.
  rewrite (snapshot_ref _ (framed p l)).
  rewrite (object_at_framed p l 0 _ moved_board).
  cbn [obj_class obj_dict board_object board_dict map fst snd].
  rewrite !snapshot_list, !snapshot_dict.
  cbn [map fst snd]. rewrite !snapshot_list.
  rewrite !moved_snapshot_refs by (unfold snapshot_depth; lia).
  rewrite !moved_snapshot_component by (unfold snapshot_depth; lia).
  reflexivity.
Qed.

End Moved.

(** X12.  [initialize_components] can be run again on a constructed
    registry.  It allocates 45 new components and gives the board the same
    snapshot as before; the components the board owned before are still in
    the store, unchanged, but the board owns none of them any more. *)
Theorem initialize_components_again
    (s0 : store) (ff : string) (mb : value) (s : store) :
  Mainboard_new ff s0 = (Ok mb, s) ->
  exists s2 o o2,
    initialize_components mb s = (Ok tt, s2) /\
    length s2 = length s + 45 /\
    object_at s mb = Some o /\
    object_at s2 mb = Some o2 /\
    length (owned_components s2 o2) = 45 /\
    (forall c, In c (owned_components s o) ->
               object_at s2 c = object_at s c /\
               ~ In c (owned_components s2 o2)) /\
    snapshot snapshot_depth s2 mb = snapshot snapshot_depth s mb.
Proof.
  intros H.
  pose proof (constructed_snapshot_now _ _ _ _ H) as Hsnap.
  apply constructed_inv in H as [-> ->].
  set (l2 := board_object (length s0 + 45) ff
             :: fresh_components ++ fresh_components).
  assert (l2 !! 0 = Some (board_object (length s0 + 45) ff)) as Hb
    by reflexivity.
  assert (forall k o, fresh_components !! k = Some o ->
                      l2 !! (46 + k) = Some o) as Hc.
  { intros k o Ho. unfold l2.
    change ((fresh_components ++ fresh_components) !! (45 + k) = Some o).
    rewrite lookup_app_r by (rewrite fresh_components_length; lia).
    rewrite fresh_components_length.
    now replace (45 + k - 45) with k by lia. }
  exists (framed s0 l2), (board_object (length s0) ff),
         (board_object (length s0 + 45) ff).
  split; [apply initialize_components_again_store|].
  split.
  { unfold framed, l2, board_objects. rewrite !length_app. cbn [length].
    rewrite !length_app, !fresh_components_length. lia. }
  split; [apply board_framed with (ff := ff), held_self|].
  split; [now apply object_at_framed|].
  rewrite (moved_owned_components s0 l2 ff Hc).
  rewrite (owned_components_framed _ _ ff (held_self _ _)).
  split; [now rewrite length_refs_at|].
  split.
  - assert (Forall (fun k => 1 <= k <= 45) (flat_held ++ grouped_offsets))
      as R.
    { apply Forall_app.
      split; [apply flat_held_range|apply grouped_offsets_range]. }
    rewrite Forall_forall in R.
    intros c Hin. apply in_refs_at in Hin as (k & -> & Hk).
    apply list_elem_of_In, R in Hk. split.
    + destruct k as [|k]; [lia|].
      destruct (lookup_lt_is_Some_2 fresh_components k) as [o Ho].
      { rewrite fresh_components_length. lia. }
      rewrite (component_framed _ _ ff (held_self _ _) k o Ho).
      apply object_at_framed. unfold l2.
      change ((fresh_components ++ fresh_components) !! k = Some o).
      now apply lookup_app_l_Some.
    + intros Hin. apply in_refs_at in Hin as (j & E & Hj).
      apply list_elem_of_In, R in Hj. injection E as E. lia.
  - rewrite Hsnap. now apply moved_snapshot.
Qed.

Lemma initialize_components_again_witness :
  Mainboard_new "ATX" [] = (Ok (VRef 0), board_objects 0 "ATX") /\
  exists s2 o o2,
    initialize_components (VRef 0) (board_objects 0 "ATX") = (Ok tt, s2) /\
    length s2 = length (board_objects 0 "ATX") + 45 /\
    object_at (board_objects 0 "ATX") (VRef 0) = Some o /\
    object_at s2 (VRef 0) = Some o2 /\
    length (owned_components s2 o2) = 45 /\
    (forall c, In c (owned_components (board_objects 0 "ATX") o) ->
               object_at s2 c = object_at (board_objects 0 "ATX") c /\
               ~ In c (owned_components s2 o2)) /\
    snapshot snapshot_depth s2 (VRef 0) =
    snapshot snapshot_depth (board_objects 0 "ATX") (VRef 0).
Proof.
  split; [reflexivity|].
  apply (initialize_components_again [] "ATX"). reflexivity.
Defined.

(** ** The order of the reads in [run_diagnostics] *)

(** X13.  [run_diagnostics] reads the post code before anything else: when
    the [specs] of the debug system are replaced by a dictionary without
    the key ['post_code'], it raises [KeyError] for that key, and neither
    the components nor the temperatures are looked at. *)
Theorem run_diagnostics_missing_post_code
    (F : framework) (a b : addr) (s s' : store) (d : list (string * value)) :
  a <> b ->
  getattr F (VRef a) "debug_features" s = (Ok (VRef b), s) ->
  dict_get "post_code" d = None ->
  setattr (VRef b) "specs" (VDict d) s = (Ok tt, s') ->
  run_diagnostics F (VRef a) s' = (Raise (KeyError "post_code"), s').
Proof.
  intros Hab Hdbg Hd Hw.
  apply setattr_Ok in Hw as (ob & Hb & ->); [|reflexivity].
  unfold run_diagnostics. unfold bind at 1.
  rewrite (write_getattr F s b ob "specs" (VDict d) Hb a _ _ Hab Hdbg).
  unfold bind at 1.
  rewrite (getattr_at F _ b _ _ (write_lookup_eq s b ob "specs" (VDict d) Hb)).
  rewrite (read_own F _ _ _ (VDict d)) by apply attr_of_set_eq.
  unfold bind at 1, getitem. now rewrite Hd.
Qed.

Lemma run_diagnostics_missing_post_code_witness :
  let s := board_objects 0 "ATX" in
  let s' := <[35 := set_field "specs" (VDict [("voltage_monitoring", VBool true)])
                      (component_object "Debug System" debug_specs)]> s in
  getattr bare (VRef 0) "debug_features" s = (Ok (VRef 35), s) /\
  setattr (VRef 35) "specs" (VDict [("voltage_monitoring", VBool true)]) s =
    (Ok tt, s') /\
  run_diagnostics bare (VRef 0) s' = (Raise (KeyError "post_code"), s').
Proof.
  cbv zeta. split; [reflexivity|]. split; [reflexivity|].
  apply (run_diagnostics_missing_post_code bare 0 35 (board_objects 0 "ATX") _
           [("voltage_monitoring", VBool true)]);
    first [lia|reflexivity].
Defined.
